(** * Donchian breakout trading bot: backtest engine and live decision logic

    A shallow embedding of [donchian.py], [runs_indicator.py] and the
    decision/order part of [trading_bot.py], with the properties stated
    about them.

    Conventions of the embedding.
    - A pandas/numpy float cell is a [float]: [NaN] or a rational number.
      Exchange candles carry no NaN, so the price columns of a candle are
      plain rationals; NaN only appears where the code creates it (rolling
      warm-up, [shift], [np.nan] initialisation).
    - Arithmetic is exact rational arithmetic; only order comparisons and
      the products [x * 0.5], [x * 0.998], [quantity * price] are used.
      The Sortino ratio takes a square root and is stated over the reals.
    - A Python exception is an explicit [None]/error value of the function
      that raises it. *)

From Stdlib Require Import List ZArith QArith Qminmax Qround Lia Bool Arith.
From Stdlib Require Import Sorted Reals Lra.
From Stdlib Require Strings.String.
From Stdlib Require Lqa.
Import ListNotations.
Import String.StringSyntax.
Delimit Scope string_scope with string.

Local Open Scope Q_scope.

(** ** Floats with NaN *)

Definition float := option Q.
Definition NaN : float := None.

Definition Qltb (x y : Q) : bool :=
  match x ?= y with Lt => true | _ => false end.

(** [a > b] and [a < b] where the right operand may be NaN: every
    comparison with NaN is False. *)
Definition gt_float (a : Q) (b : float) : bool :=
  match b with None => false | Some y => Qltb y a end.
Definition lt_float (a : Q) (b : float) : bool :=
  match b with None => false | Some y => Qltb a y end.

(** [x == 1.0] and [x == 0.0] on a float cell. *)
Definition is_one (x : float) : bool :=
  match x with None => false | Some q => Qeq_bool q 1 end.
Definition is_zero (x : float) : bool :=
  match x with None => false | Some q => Qeq_bool q 0 end.

Definition isna (x : float) : bool :=
  match x with None => true | Some _ => false end.

(** ** Candles and data frames *)

Record Candle := mkCandle {
  timestamp : Z;
  open : Q;
  high : Q;
  low : Q;
  close : Q;
  volume : Q
}.

Definition DataFrame := list Candle.

(** ** pandas column operations used by the code *)

(** The [w] observations ending at position [i], when there are that many. *)
Definition window (w i : nat) (xs : list Q) : option (list Q) :=
  if (i + 1 <? w)%nat then None else Some (firstn w (skipn (i + 1 - w) xs)).

Definition list_max (l : list Q) : float :=
  match l with [] => NaN | x :: t => Some (fold_left Qmax t x) end.
Definition list_min (l : list Q) : float :=
  match l with [] => NaN | x :: t => Some (fold_left Qmin t x) end.

(** [col.rolling(w).max()] / [.min()] with [min_periods = w] (the default
    for an integer window, and the value [calculate_donchian_signal] passes
    explicitly) on a NaN-free column.  A zero-width window holds no
    observation and yields NaN; every statement below has [w >= 1]. *)
Definition rolling_agg (agg : list Q -> float) (w : nat) (xs : list Q) : list float :=
  map (fun i => match window w i xs with None => NaN | Some l => agg l end)
      (seq 0 (length xs)).
Definition rolling_max := rolling_agg list_max.
Definition rolling_min := rolling_agg list_min.

(** [col.shift(1)] *)
Definition shift1 (l : list float) : list float :=
  match l with [] => [] | _ :: _ => NaN :: removelast l end.

(** [col.ffill()] *)
Fixpoint ffill_from (last : float) (l : list float) : list float :=
  match l with
  | [] => []
  | None :: t => last :: ffill_from last t
  | Some v :: t => Some v :: ffill_from (Some v) t
  end.
Definition ffill : list float -> list float := ffill_from NaN.

(** [col.fillna(0)] *)
Definition fillna0 (l : list float) : list float :=
  map (fun x => match x with None => Some 0 | Some v => Some v end) l.

(** [col.iloc[-1]]; IndexError on an empty column. *)
Definition iloc_last {A} (l : list A) : option A :=
  match l with [] => None | _ => nth_error l (length l - 1) end.

(** Python indexing [l[k]]: negative positions count from the end; [None]
    is IndexError. *)
Definition pyget {A} (l : list A) (k : Z) : option A :=
  let n := Z.of_nat (length l) in
  if (k <? 0)%Z
  then (if (n + k <? 0)%Z then None else nth_error l (Z.to_nat (n + k)))
  else nth_error l (Z.to_nat k).

Definition bind {A B} (m : option A) (f : A -> option B) : option B :=
  match m with None => None | Some a => f a end.
Notation "x <- m ;; k" := (bind m (fun x => k))
  (at level 61, m at next level, right associativity).

Definition is_some {A} (o : option A) : bool :=
  match o with Some _ => true | None => false end.

(** ** donchian.py *)

Module Donchian.

(** The columns [donchian_breakout] adds to the frame. *)
Record Channels := mkChannels {
  upper : list float;
  lower : list float;
  raw_signal : list float;   (* 'signal' after the two [df.loc] stores *)
  signal : list float        (* 'signal' as left in the frame *)
}.

(** The two stores [df.loc[close > upper, 'signal'] = 1] and
    [df.loc[close < lower, 'signal'] = 0] on a NaN column, for one row. *)
Definition mark (c : Q) (u l : float) : float :=
  let s := NaN in
  let s := if gt_float c u then Some 1 else s in
  let s := if lt_float c l then Some 0 else s in
  s.

Fixpoint marks (cs : list Q) (us ls : list float) : list float :=
  match cs, us, ls with
  | c :: cs', u :: us', l :: ls' => mark c u l :: marks cs' us' ls'
  | _, _, _ => []
  end.

(** [if not df.empty and pd.isna(signal.iloc[0]): signal.iloc[0] = 0] *)
Definition fix_first (l : list float) : list float :=
  match l with
  | None :: t => Some 0 :: t
  | _ => l
  end.

(** [donchian_breakout(df, lookback)].  [None] is the ValueError pandas
    raises for a negative rolling window. *)
Definition donchian_breakout (df : DataFrame) (lookback : Z) : option Channels :=
  if (lookback - 1 <? 0)%Z then None else
  let w := Z.to_nat (lookback - 1) in
  let closes := map close df in
  let up := shift1 (rolling_max w closes) in
  let lo := shift1 (rolling_min w closes) in
  let raw := marks closes up lo in
  let sig := ffill raw in
  let sig := fix_first sig in
  let sig := fillna0 sig in
  Some (mkChannels up lo raw sig).

(** *** Trade extraction *)

(** A row of the trade table, and the 4-slot list [open_trade] of the loop:
    [[entry_time, entry_price, exit_time, exit_price]], created with the
    placeholders [-1] and [np.nan] in the last two slots. *)
Record Trade := mkTrade {
  entry_time : Z;
  entry_price : Q;
  exit_time : Z;
  exit_price : float
}.

Record LoopState := mkLoopState {
  long_trades : list Trade;
  last_sig : float;
  open_trade : option Trade
}.

(** [open_trade[2] = t; open_trade[3] = p] *)
Definition close_at (ot : Trade) (t : Z) (p : Q) : Trade :=
  mkTrade (entry_time ot) (entry_price ot) t (Some p).

(** One iteration of [for i in range(len(data))]. *)
Definition loop_body (idx : list Z) (close_arr : list Q) (sig : list float)
    (st : LoopState) (i : nat) : option LoopState :=
  current_signal <- pyget sig (Z.of_nat i) ;;
  st1 <-
    (if is_one current_signal && negb (is_one (last_sig st)) then
       trades <-
         match open_trade st with
         | Some ot =>
             t <- pyget idx (Z.of_nat i - 1) ;;
             p <- pyget close_arr (Z.of_nat i - 1) ;;
             Some (long_trades st ++ [close_at ot t p])
         | None => Some (long_trades st)
         end ;;
       t <- pyget idx (Z.of_nat i) ;;
       p <- pyget close_arr (Z.of_nat i) ;;
       Some (mkLoopState trades (last_sig st) (Some (mkTrade t p (-1) NaN)))
     else Some st) ;;
  st2 <-
    (if is_zero current_signal && is_one (last_sig st1) then
       match open_trade st1 with
       | Some ot =>
           t <- pyget idx (Z.of_nat i) ;;
           p <- pyget close_arr (Z.of_nat i) ;;
           Some (mkLoopState (long_trades st1 ++ [close_at ot t p]) (last_sig st1) None)
       | None => Some st1
       end
     else Some st1) ;;
  Some (mkLoopState (long_trades st2) current_signal (open_trade st2)).

Fixpoint for_range (body : LoopState -> nat -> option LoopState)
    (range : list nat) (st : LoopState) : option LoopState :=
  match range with
  | [] => Some st
  | i :: rest => st' <- body st i ;; for_range body rest st'
  end.

(** The block after the loop: an open trade is closed at the last bar. *)
Definition close_dangling (idx : list Z) (close_arr : list Q)
    (st : LoopState) : option (list Trade) :=
  match open_trade st with
  | Some ot =>
      if (exit_time ot =? -1)%Z then
        t <- pyget idx (-1) ;;
        p <- pyget close_arr (-1) ;;
        Some (long_trades st ++ [close_at ot t p])
      else Some (long_trades st)
  | None => Some (long_trades st)
  end.

(** [long_trades_df.sort_index()] on the [entry_time] index. *)
Fixpoint insert_by_entry (t : Trade) (l : list Trade) : list Trade :=
  match l with
  | [] => [t]
  | u :: r => if (entry_time t <=? entry_time u)%Z then t :: l
              else u :: insert_by_entry t r
  end.
Definition sort_index (l : list Trade) : list Trade :=
  fold_right insert_by_entry [] l.

Record TradeTables := mkTradeTables {
  long_trades_df : list Trade;
  short_trades_df : list Trade;
  all_trades : list Trade
}.

(** [get_trades_from_signal(data, signal)].  The rows carry the four
    columns the loop fills; the derived per-row columns 'return' and 'type'
    are not represented.  [None] is the IndexError of [signal[i]] on a
    signal array shorter than the frame. *)
Definition get_trades_from_signal (data : DataFrame) (sig : list float)
    : option TradeTables :=
  let close_arr := map close data in
  let idx := map timestamp data in
  st <- for_range (loop_body idx close_arr sig) (seq 0 (length data))
          (mkLoopState [] (Some 0) None) ;;
  trades <- close_dangling idx close_arr st ;;
  Some (mkTradeTables trades [] (sort_index trades)).

(** An entry transition met while [open_trade] is not None, anywhere in the
    scan: the situation the inner [if open_trade is not None] handles. *)
Fixpoint entry_while_open_from (idx : list Z) (close_arr : list Q) (sig : list float)
    (range : list nat) (st : LoopState) : bool :=
  match range with
  | [] => false
  | i :: rest =>
      match pyget sig (Z.of_nat i), loop_body idx close_arr sig st i with
      | Some cur, Some st' =>
          (is_one cur && negb (is_one (last_sig st)) && is_some (open_trade st))
          || entry_while_open_from idx close_arr sig rest st'
      | _, _ => false
      end
  end.
Definition entry_while_open (data : DataFrame) (sig : list float) : bool :=
  entry_while_open_from (map timestamp data) (map close data) sig
    (seq 0 (length data)) (mkLoopState [] (Some 0) None).

End Donchian.

(** ** donchian.py: performance metrics *)

Module Metrics.

Local Open Scope R_scope.

(** A metric value: NaN, [np.inf], or a finite number. *)
Inductive metric := MNaN | MInf | MVal (r : R).

Definition sum (l : list R) : R := fold_right Rplus 0 l.

(** [Series.mean()] *)
Definition mean (l : list R) : R := sum l / INR (length l).

(** [Series.std()]: the sample standard deviation (ddof = 1), NaN with
    fewer than two observations. *)
Definition std (l : list R) : option R :=
  if (length l <? 2)%nat then None
  else Some (sqrt (sum (map (fun x => (x - mean l) ^ 2) l) / (INR (length l) - 1))).

(** [returns_series[returns_series < target_return]] *)
Definition below (target : R) (l : list R) : list R :=
  filter (fun r => if Rlt_dec r target then true else false) l.

(** [calculate_sortino_ratio(returns_series, risk_free_rate, target_return)]
    on a series of finite returns. *)
Definition calculate_sortino_ratio (returns_series : list R)
    (risk_free_rate target_return : R) : metric :=
  if (length returns_series <? 2)%nat then MNaN
  else
    let negative_returns := below target_return returns_series in
    match negative_returns with
    | [] => MInf
    | _ :: _ =>
        match std negative_returns with
        | None => MNaN
        | Some downside_deviation =>
            if Req_EM_T downside_deviation 0 then MNaN
            else
              let average_return := mean returns_series in
              MVal ((average_return - risk_free_rate) / downside_deviation)
        end
    end.

End Metrics.

(** ** runs_indicator.py *)

Module RunsIndicator.

(** A pandas Series: index labels paired with float cells. *)
Definition Series := list (Z * float).

(** [close.diff()]: NaN in the first row, and wherever an operand is NaN. *)
Definition sub_float (a b : float) : float :=
  match a, b with Some x, Some y => Some (x - y) | _, _ => NaN end.
Definition diff (l : list float) : list float :=
  match l with
  | [] => []
  | _ :: t => NaN :: map (fun p => sub_float (snd p) (fst p)) (combine l t)
  end.

(** [np.sign] on one cell. *)
Definition sign (x : float) : float :=
  match x with
  | None => NaN
  | Some q => Some (match q ?= 0 with Lt => -1 | Eq => 0 | Gt => 1 end)
  end.

(** [a[lo:hi]] for non-negative bounds. *)
Definition slice {A} (l : list A) (lo hi : nat) : list A :=
  firstn (hi - lo) (skipn lo l).

(** [segment[~np.isnan(segment)]] *)
Fixpoint dropna (l : list float) : list Q :=
  match l with
  | [] => []
  | None :: t => dropna t
  | Some q :: t => q :: dropna t
  end.

(** [ind[i] = v] on an array, for [i] in bounds. *)
Fixpoint set_nth {A} (l : list A) (i : nat) (v : A) : list A :=
  match l, i with
  | [], _ => []
  | _ :: t, O => v :: t
  | x :: t, S j => x :: set_nth t j v
  end.

Section WithRunsTest.

(** [from runs_test import runs_test]: the z-score of the runs test on a
    NaN-free array of signs.  The module is not part of the sources at
    hand; it is taken as a parameter returning a float cell. *)
Variable runs_test : list Q -> float.

Definition indicator_step (lookback : nat) (change_sign : list float)
    (ind : list float) (i : nat) : list float :=
  let segment := slice change_sign (i - lookback + 1) (i + 1) in
  let segment_no_nans := dropna segment in
  if (2 <=? length segment_no_nans)%nat
  then set_nth ind i (runs_test segment_no_nans)
  else ind.

(** [runs_trend_indicator(close, lookback)] *)
Definition runs_trend_indicator (close : Series) (lookback : Z) : Series :=
  let n := length close in
  if (lookback <=? 1)%Z || (Z.of_nat n <? lookback)%Z then
    combine (map fst close) (repeat NaN n)
  else
    let change_sign := map sign (diff (map snd close)) in
    let lb := Z.to_nat lookback in
    let ind :=
      fold_left (indicator_step lb change_sign) (seq lb (n - lb)) (repeat NaN n) in
    combine (map fst close) ind.

End WithRunsTest.

End RunsIndicator.

(** ** trading_bot.py *)

Module TradingBot.

Definition MIN_BTC_HOLDING : Q := 5 # 100000.
Definition MIN_KRW_ORDER : Q := 100000.

(** What [calculate_donchian_signal] writes with [log_message]. *)
Inductive LogEvent :=
| LogInsufficientData (need : Z) (got : nat)   (* ERROR "Insufficient data ..." *)
| LogBandsNotReady                             (* INFO "Donchian bands not ready yet (NaN)." *)
| LogBands (latest_close upper_band lower_band : Q)  (* DEBUG *)
| LogSignalError.                              (* ERROR in the except branch *)

(** [calculate_donchian_signal(df, lookback)]: the log lines and the
    returned [int | None].  The except branch is reached by the ValueError
    of a negative rolling window and by [iloc[-1]] on an empty frame. *)
Definition calculate_donchian_signal (df : option DataFrame) (lookback : Z)
    : list LogEvent * option Z :=
  match df with
  | None => ([LogInsufficientData lookback 0], None)
  | Some d =>
      if (Z.of_nat (length d) <? lookback)%Z then
        ([LogInsufficientData lookback (length d)], None)
      else if (lookback - 1 <? 0)%Z then ([LogSignalError], None)
      else
        let w := Z.to_nat (lookback - 1) in
        match iloc_last (shift1 (rolling_max w (map high d))),
              iloc_last (shift1 (rolling_min w (map low d))),
              iloc_last (map close d) with
        | Some upper_band, Some lower_band, Some latest_close =>
            match upper_band, lower_band with
            | Some u, Some l =>
                ([LogBands latest_close u l],
                 if Qltb u latest_close then Some 1%Z
                 else if Qltb latest_close l then Some 0%Z
                 else None)
            | _, _ => ([LogBandsNotReady], None)
            end
        | _, _, _ => ([LogSignalError], None)
        end
  end.

(** Python [round(x)] on a float: to the nearest integer, ties to even. *)
Definition round_half_even (x : Q) : Z :=
  let f := Qfloor x in
  match Qcompare (x - inject_Z f) (1 # 2) with
  | Lt => f
  | Gt => (f + 1)%Z
  | Eq => if Z.even f then f else (f + 1)%Z
  end.

(** Python [round(x, 8)] *)
Definition round8 (x : Q) : Q :=
  round_half_even (x * inject_Z 100000000) # 100000000.

Inductive Side := Buy | Sell.

Inductive OrderResponse :=
| Accepted (uuid : nat)    (* a dict with a 'uuid' key *)
| Rejected.                (* None, or an error payload *)

(** The exchange as seen during one cycle. *)
Record Exchange := mkExchange {
  get_ohlcv : Z -> option DataFrame;           (* pyupbit.get_ohlcv(count=...) *)
  get_balances : option (Q * Q);               (* KRW, coin *)
  get_current_price : option Q;
  buy_limit_order : Z -> Q -> OrderResponse;
  sell_limit_order : Z -> Q -> OrderResponse
}.

(** What one cycle does, in order: log lines, Notion trade-log rows and
    exchange order calls. *)
Inductive Event :=
| FetchFailed
| SignalLog (l : LogEvent)
| BalanceUnavailable
| HoldingStatus (is_holding_coin : bool)
| BuyAmount (buy_amount : Q)                   (* INFO "Using 50% of available KRW ..." *)
| OrderSkip (s : Side)                         (* Notion row "Order Skip" *)
| PriceUnavailable (s : Side)
| BelowMinSellValue (estimated_value : Q)
| OrderAttempt (s : Side) (limit_price : Z) (quantity : Q)       (* "New Order Attempt" *)
| SubmitLimitOrder (s : Side) (limit_price : Z) (quantity : Q)   (* upbit.*_limit_order *)
| OrderPlaced (s : Side) (uuid : nat)
| OrderError (s : Side)
| Holding
| BotError.                                    (* the outer except branch *)

Definition signal_is (s : option Z) (v : Z) : bool :=
  match s with Some x => (x =? v)%Z | None => false end.

Definition order_outcome (s : Side) (r : OrderResponse) : Event :=
  match r with Accepted uuid => OrderPlaced s uuid | Rejected => OrderError s end.

(** Step 5 of [check_and_trade], "Execute Trade Logic". *)
Definition execute_trade_logic (ex : Exchange) (latest_signal : option Z)
    (krw_available coin_balance : Q) : list Event :=
  let is_holding_coin := Qltb MIN_BTC_HOLDING coin_balance in
  if signal_is latest_signal 1 then
    if Qltb krw_available MIN_KRW_ORDER then [OrderSkip Buy]
    else
      let buy_amount := krw_available * (5 # 10) in
      BuyAmount buy_amount ::
      match get_current_price ex with
      | None => [PriceUnavailable Buy]
      | Some current_price =>
          let limit_price := round_half_even (current_price * (998 # 1000)) in
          if (limit_price =? 0)%Z then [BotError]   (* ZeroDivisionError *)
          else
            let quantity := round8 (buy_amount / inject_Z limit_price) in
            [OrderAttempt Buy limit_price quantity;
             SubmitLimitOrder Buy limit_price quantity;
             order_outcome Buy (buy_limit_order ex limit_price quantity)]
      end
  else if signal_is latest_signal 0 && is_holding_coin then
    match get_current_price ex with
    | None => [PriceUnavailable Sell]
    | Some current_price =>
        let limit_price := round_half_even (current_price * (998 # 1000)) in
        let estimated_value := coin_balance * current_price in
        if Qle_bool MIN_KRW_ORDER estimated_value then
          [OrderAttempt Sell limit_price coin_balance;
           SubmitLimitOrder Sell limit_price coin_balance;
           order_outcome Sell (sell_limit_order ex limit_price coin_balance)]
        else [BelowMinSellValue estimated_value]
    end
  else [Holding].

(** [check_and_trade()] with the configured [DONCHIAN_LOOKBACK]; the
    Notion/Slack balance synchronisation and the closing open-order report
    do not touch the decision and are left out. *)
Definition check_and_trade (ex : Exchange) (DONCHIAN_LOOKBACK : Z) : list Event :=
  let fetch_count := (DONCHIAN_LOOKBACK + 5)%Z in
  match get_ohlcv ex fetch_count with
  | None | Some [] => [FetchFailed]
  | Some df =>
      let '(log, latest_signal) := calculate_donchian_signal (Some df) DONCHIAN_LOOKBACK in
      map SignalLog log ++
      match get_balances ex with
      | None => [BalanceUnavailable]
      | Some (krw_available, coin_balance) =>
          HoldingStatus (Qltb MIN_BTC_HOLDING coin_balance) ::
          execute_trade_logic ex latest_signal krw_available coin_balance
      end
  end.

(** The orders sent to the exchange during a cycle. *)
Definition submitted (s : Side) (tr : list Event) : list (Z * Q) :=
  flat_map (fun e => match e with
                     | SubmitLimitOrder s' p q =>
                         match s, s' with
                         | Buy, Buy | Sell, Sell => [(p, q)]
                         | _, _ => []
                         end
                     | _ => []
                     end) tr.

End TradingBot.

(** ** Vocabulary of the statements *)

(** A signal cell that is 0 or 1. *)
Definition binary (v : float) : Prop := v = Some 0 \/ v = Some 1.

(** Timestamps of a candle series: strictly increasing, no duplicates. *)
Fixpoint strictly_increasing (l : list Z) : bool :=
  match l with
  | [] => true
  | x :: t => match t with
              | [] => true
              | y :: _ => (x <? y)%Z && strictly_increasing t
              end
  end.

Definition no_overlap (a b : Donchian.Trade) : Prop :=
  (Donchian.exit_time a <= Donchian.entry_time b)%Z.
Definition entry_ascending (a b : Donchian.Trade) : Prop :=
  (Donchian.entry_time a <= Donchian.entry_time b)%Z.

(** The state of the extraction loop before iteration [k], for a frame
    with timestamps [idx] and closes [close_arr]. *)
Record loop_inv (idx : list Z) (close_arr : list Q) (sig : list float)
    (k : nat) (st : Donchian.LoopState) : Prop := mkLoopInv {
  inv_closed : Forall (fun t => (Donchian.entry_time t < Donchian.exit_time t)%Z)
                 (Donchian.long_trades st);
  inv_sorted : StronglySorted no_overlap (Donchian.long_trades st);
  inv_strict : StronglySorted
                 (fun a b => (Donchian.entry_time a < Donchian.entry_time b)%Z)
                 (Donchian.long_trades st);
  inv_past : forall i, (k <= i < length idx)%nat ->
             Forall (fun t => (Donchian.exit_time t < nth i idx 0)%Z)
               (Donchian.long_trades st);
  inv_open : forall ot, Donchian.open_trade st = Some ot ->
             Donchian.exit_time ot = (-1)%Z /\
             Forall (fun t => (Donchian.exit_time t < Donchian.entry_time ot)%Z)
               (Donchian.long_trades st) /\
             exists j, (j < k)%nat /\
               Donchian.entry_time ot = nth j idx 0%Z /\
               (is_one (Donchian.last_sig st) = false -> (S j < k)%nat);
  inv_long : is_one (Donchian.last_sig st) = true ->
             Donchian.open_trade st <> None;
  inv_last : forall k', k = S k' -> nth_error sig k' = Some (Donchian.last_sig st)
}.

(** The [w] candles that precede the last one. *)
Definition prior_window {A} (w : nat) (l : list A) : list A :=
  firstn w (skipn (length l - 1 - w) l).

(** The breakout/exit test of the live engine on a close and two bands. *)
Definition live_decision (c u l : Q) : option Z :=
  if Qltb u c then Some 1%Z else if Qltb c l then Some 0%Z else None.

(** The live engine took its "Insufficient data" exit. *)
Definition reports_insufficient_data (r : list TradingBot.LogEvent * option Z) : bool :=
  match fst r with
  | [TradingBot.LogInsufficientData _ _] => true
  | _ => false
  end.

(** A candle whose high and low coincide with its close. *)
Definition flat_candle (b : Candle) : Prop := high b = close b /\ low b = close b.

(** ** Sample inputs *)

Module Samples.

Definition bar (t : Z) (c : Q) : Candle := mkCandle t c c c c 0.

(** closes 100,101,102,99,98,97,103,104 *)
Definition df_breakout : DataFrame :=
  [bar 1 100; bar 2 101; bar 3 102; bar 4 99; bar 5 98; bar 6 97;
   bar 7 103; bar 8 104].

(** closes 100,110,120,90,95 *)
Definition df_exit : DataFrame :=
  [bar 1 100; bar 2 110; bar 3 120; bar 4 90; bar 5 95].

(** Three candles with wicks: highs 12, lows 9, closes 10, 10, 11. *)
Definition df_wicks : DataFrame :=
  [mkCandle 1 10 12 9 10 0; mkCandle 2 10 12 9 10 0; mkCandle 3 10 12 9 11 0].

(** closes 100,110,120: exactly [lookback] candles for lookback 3. *)
Definition df_three : DataFrame := [bar 1 100; bar 2 110; bar 3 120].

(** A signal array with a value outside {0, 1} between two entries. *)
Definition sig_reentry : list float :=
  [Some 1; Some (1 # 2); Some 1; Some 0; Some 1].

End Samples.

(** ** Further vocabulary *)

(** A candle whose close lies between its low and its high. *)
Definition well_formed_candle (b : Candle) : Prop :=
  low b <= close b /\ close b <= high b.

(** The entry transitions of a signal array: the rows whose value is 1
    while the value before them (0.0 before the first row) is not. *)
Fixpoint entry_transitions_from (last : float) (sig : list float) : nat :=
  match sig with
  | [] => 0
  | s :: t => (if is_one s && negb (is_one last) then 1 else 0)
              + entry_transitions_from s t
  end.
Definition entry_transitions (sig : list float) : nat :=
  entry_transitions_from (Some 0) sig.

(** A trade row whose entry and exit are the timestamp and close of rows
    of the frame. *)
Definition priced_at (data : DataFrame) (t : Donchian.Trade) : Prop :=
  exists bar bar', In bar data /\ In bar' data /\
    Donchian.entry_time t = timestamp bar /\ Donchian.entry_price t = close bar /\
    Donchian.exit_time t = timestamp bar' /\
    Donchian.exit_price t = Some (close bar').

Definition opened_at (data : DataFrame) (t : Donchian.Trade) : Prop :=
  exists bar, In bar data /\
    Donchian.entry_time t = timestamp bar /\ Donchian.entry_price t = close bar /\
    Donchian.exit_time t = (-1)%Z.

Definition open_count (st : Donchian.LoopState) : nat :=
  match Donchian.open_trade st with Some _ => 1%nat | None => 0%nat end.

(** ** donchian.py: the moving-average filter *)

Module DonchianFilter.

(** The columns [donchian_breakout_with_ma_filter] adds to the frame. *)
Record FilteredChannels := mkFilteredChannels {
  upper : list float;
  lower : list float;
  sma : list float;
  raw_signal : list float;   (* 'signal' after the two [df.loc] stores *)
  signal : list float        (* 'signal' as left in the frame *)
}.

(** The stores [df.loc[(close > upper) & (close > sma), 'signal'] = 1] and
    [df.loc[close < lower, 'signal'] = 0] on a NaN column, for one row. *)
Definition mark (c : Q) (u l s : float) : float :=
  let sig := NaN in
  let sig := if gt_float c u && gt_float c s then Some 1 else sig in
  let sig := if lt_float c l then Some 0 else sig in
  sig.

Fixpoint marks (cs : list Q) (us ls ss : list float) : list float :=
  match cs, us, ls, ss with
  | c :: cs', u :: us', l :: ls', s :: ss' => mark c u l s :: marks cs' us' ls' ss'
  | _, _, _, _ => []
  end.

Section WithSMA.

(** [ta.sma(close, length)] of pandas_ta: the moving-average column over
    the frame's index.  The library is not part of the sources; the column
    it returns is a parameter. *)
Variable ta_sma : list Q -> Z -> list float.

(** [donchian_breakout_with_ma_filter(df, donchian_lookback, ma_lookback)];
    [None] is the ValueError of a negative rolling window. *)
Definition donchian_breakout_with_ma_filter (df : DataFrame)
    (donchian_lookback ma_lookback : Z) : option FilteredChannels :=
  if (donchian_lookback - 1 <? 0)%Z then None else
  let w := Z.to_nat (donchian_lookback - 1) in
  let closes := map close df in
  let up := shift1 (rolling_max w closes) in
  let lo := shift1 (rolling_min w closes) in
  let ma := ta_sma closes ma_lookback in
  let raw := marks closes up lo ma in
  let sig := ffill raw in
  let sig := Donchian.fix_first sig in
  let sig := fillna0 sig in
  Some (mkFilteredChannels up lo ma raw sig).

End WithSMA.

End DonchianFilter.

(** A filtered mark against the unfiltered mark of the same row: equal, or
    an entry the filter has removed. *)
Definition filtered_mark (f u : float) : Prop :=
  f = u \/ (f = NaN /\ u = Some 1).

(** ** Further sample inputs *)

Module MoreSamples.

(** The columns [donchian_breakout] computes on [Samples.df_exit] with
    lookback 3. *)
Definition ch_exit : Donchian.Channels :=
  Donchian.mkChannels
    [NaN; NaN; Some 110; Some 120; Some 120]
    [NaN; NaN; Some 100; Some 110; Some 90]
    [NaN; NaN; Some 1; Some 0; NaN]
    [Some 0; Some 0; Some 1; Some 0; Some 0].

(** A moving average of length 1: the close itself. *)
Definition sma_of_one (cs : list Q) (_ : Z) : list float := map Some cs.

(** The columns of the filtered variant on the same frame with that
    average: no close is above itself, so no entry is left. *)
Definition fch_exit : DonchianFilter.FilteredChannels :=
  DonchianFilter.mkFilteredChannels
    [NaN; NaN; Some 110; Some 120; Some 120]
    [NaN; NaN; Some 100; Some 110; Some 90]
    [Some 100; Some 110; Some 120; Some 90; Some 95]
    [NaN; NaN; NaN; Some 0; NaN]
    [Some 0; Some 0; Some 0; Some 0; Some 0].

End MoreSamples.

(** ** donchian.py: maximum drawdown *)

Module Drawdown.

(** A cell of the drawdown column: NaN, an infinity, or a number.  The
    infinities only arise from a division by a zero peak. *)
Inductive cell := CNaN | CNegInf | CPosInf | CFin (q : Q).

(** [(1 + returns_series).cumprod()] *)
Fixpoint cumprod_from (acc : Q) (l : list Q) : list Q :=
  match l with
  | [] => []
  | x :: t => acc * x :: cumprod_from (acc * x) t
  end.
Definition cumprod (l : list Q) : list Q :=
  match l with [] => [] | x :: t => x :: cumprod_from x t end.

(** [col.expanding(min_periods=1).max()] *)
Fixpoint expanding_max_from (m : Q) (l : list Q) : list Q :=
  match l with
  | [] => []
  | x :: t => Qmax m x :: expanding_max_from (Qmax m x) t
  end.
Definition expanding_max (l : list Q) : list Q :=
  match l with [] => [] | x :: t => x :: expanding_max_from x t end.

(** Float division [n / d]; a zero divisor (taken as +0.0) gives NaN for
    a zero numerator and a signed infinity otherwise. *)
Definition div_cell (n d : Q) : cell :=
  if Qeq_bool d 0 then
    match n ?= 0 with Eq => CNaN | Lt => CNegInf | Gt => CPosInf end
  else CFin (n / d).

Definition cell_le (a b : cell) : bool :=
  match a, b with
  | CNaN, _ | _, CNaN => false
  | CNegInf, _ => true
  | _, CPosInf => true
  | CFin x, CFin y => Qle_bool x y
  | _, _ => false
  end.

(** [col.min()]: NaN cells are skipped; NaN when nothing is left. *)
Definition min2 (a b : cell) : cell :=
  match a, b with
  | CNaN, _ => b
  | _, CNaN => a
  | _, _ => if cell_le a b then a else b
  end.
Definition series_min (l : list cell) : cell := fold_left min2 l CNaN.

Definition drawdown (cumulative_returns peak : list Q) : list cell :=
  map (fun cp => div_cell (fst cp - snd cp) (snd cp))
      (combine cumulative_returns peak).

(** [calculate_mdd(returns_series)] on a series of finite returns. *)
Definition calculate_mdd (returns_series : list Q) : cell :=
  match returns_series with
  | [] => CNaN
  | _ :: _ =>
      let cumulative_returns := cumprod (map (fun r => 1 + r) returns_series) in
      let peak := expanding_max cumulative_returns in
      let mdd := series_min (drawdown cumulative_returns peak) in
      match mdd with CNaN => CNaN | _ => mdd end
  end.

End Drawdown.

(** ** trading_bot.py: loading the parameter file *)

Module Params.

(** A value as [json.load] returns it. *)
#[warnings="-register-all"]
Inductive json :=
| JNull
| JBool (b : bool)
| JInt (z : Z)
| JFloat (q : Q)
| JStr (s : String.string)
| JArr (l : list json)
| JObj (o : list (String.string * json)).   (* a dict, keys distinct *)

(** What opening and parsing [params_file] can come to. *)
Inductive ParamsFile :=
| FileMissing                 (* os.path.exists is False *)
| FileUnreadable              (* open() or anything else raises *)
| FileInvalidJSON             (* json.JSONDecodeError *)
| FileContent (params : json).

(** [d.get(key)]: None for a missing key. *)
Fixpoint dict_get (o : list (String.string * json)) (key : String.string) : json :=
  match o with
  | [] => JNull
  | (k, v) :: rest => if String.eqb k key then v else dict_get rest key
  end.

Inductive ParamLog :=
| WarnNotFound
| WarnInvalidInterval
| WarnInvalidLookback
| InfoLoaded
| InfoBacktestLoaded
| InfoNoBacktest
| ErrInvalidJSON
| ErrLoading.

Record Loaded := mkLoaded {
  interval : String.string;
  donchian_lookback : Z;
  (* the new value of the global BACKTEST_RESULTS, when it is assigned *)
  backtest_results : option (list (String.string * json));
  log : list ParamLog
}.

(** [isinstance(x, str) and x] *)
Definition valid_interval (x : json) : option String.string :=
  match x with
  | JStr s => if String.eqb s ""%string then None else Some s
  | _ => None
  end.

(** [isinstance(x, int) and not x <= 0]; a bool is an int in Python, with
    True == 1 and False == 0. *)
Definition valid_lookback (x : json) : option Z :=
  match x with
  | JInt z => if (z <=? 0)%Z then None else Some z
  | JBool true => Some 1%Z
  | _ => None
  end.

(** [load_optimal_params(params_file, default_interval, default_lookback)].
    The search for a results CSV in the working directory, which only sets
    BACKTEST_RESULTS_FILE, is left out. *)
Definition load_optimal_params (file : ParamsFile)
    (default_interval : String.string) (default_lookback : Z) : Loaded :=
  match file with
  | FileMissing => mkLoaded default_interval default_lookback None [WarnNotFound]
  | FileUnreadable => mkLoaded default_interval default_lookback None [ErrLoading]
  | FileInvalidJSON => mkLoaded default_interval default_lookback None [ErrInvalidJSON]
  | FileContent (JObj params) =>
      let interval := dict_get params "interval"%string in
      let donchian_lookback := dict_get params "donchian_lookback"%string in
      let backtest_results := dict_get params "backtest_results"%string in
      let '(interval, log1) :=
        match valid_interval interval with
        | Some s => (s, [])
        | None => (default_interval, [WarnInvalidInterval])
        end in
      let '(donchian_lookback, log2) :=
        match valid_lookback donchian_lookback with
        | Some n => (n, [])
        | None => (default_lookback, [WarnInvalidLookback])
        end in
      let '(results, log3) :=
        match backtest_results with
        | JObj (kv :: rest) => (Some (kv :: rest), [InfoBacktestLoaded])
        | _ => (None, [InfoNoBacktest])
        end in
      mkLoaded interval donchian_lookback results
        (log1 ++ log2 ++ [InfoLoaded] ++ log3)
  | FileContent _ =>
      (* params.get raises AttributeError on anything but a dict *)
      mkLoaded default_interval default_lookback None [ErrLoading]
  end.

End Params.

(** ** trading_bot.py: open orders *)

Module OrderStatus.

(** An entry of [upbit.get_order(TICKER)].  A numeric field is [None] when
    the key is missing or its text is not a number: [float(...)] raises. *)
Record OpenOrder := mkOpenOrder {
  uuid : nat;
  side_is_bid : bool;
  price : option Q;
  volume : option Q;
  remaining_volume : option Q
}.

(** The "Order Partially Filled" row handed to [notion_log_trade]. *)
Record PartialFill := mkPartialFill {
  order_id : nat;
  side : TradingBot.Side;
  filled_price : Q;
  filled_quantity : Q;
  remaining_quantity : Q
}.

(** The loop over the open orders: the rows logged so far, and whether an
    exception ended the loop. *)
Fixpoint scan_orders (orders : list OpenOrder) : list PartialFill * bool :=
  match orders with
  | [] => ([], false)
  | order :: rest =>
      let order_type := if side_is_bid order then TradingBot.Buy else TradingBot.Sell in
      match price order, volume order, remaining_volume order with
      | Some p, Some orig_volume, Some remaining =>
          let row :=
            if Qltb remaining orig_volume && Qltb 0 remaining
            then [mkPartialFill (uuid order) order_type p
                    (orig_volume - remaining) remaining]
            else [] in
          let '(rows, failed) := scan_orders rest in
          (row ++ rows, failed)
      | _, _, _ => ([], true)
      end
  end.

(** [check_order_status()]: [None] for an exchange client that is not
    initialised or a [get_order] that returns nothing. *)
Definition check_order_status (open_orders : option (list OpenOrder))
    : list PartialFill * bool :=
  match open_orders with
  | None | Some [] => ([], false)
  | Some orders => scan_orders orders
  end.

Definition well_formed (o : OpenOrder) : Prop :=
  price o <> None /\ volume o <> None /\ remaining_volume o <> None.

End OrderStatus.

Module ExchangeSamples.

(** An exchange quoting 100,000,000 KRW that accepts every order. *)
Definition accepting : TradingBot.Exchange :=
  TradingBot.mkExchange (fun _ => None) None (Some 100000000)
    (fun _ _ => TradingBot.Accepted 7) (fun _ _ => TradingBot.Accepted 9).

End ExchangeSamples.

(** The sign of a number, as [np.sign] gives it. *)
Definition sgn (q : Q) : Q :=
  match q ?= 0 with Lt => -1 | Eq => 0 | Gt => 1 end.

(** The value at a row of a series, 0 standing in for NaN. *)
Definition value_at (s : RunsIndicator.Series) (j : nat) : Q :=
  match nth j (map snd s) NaN with Some q => q | None => 0 end.

(** A trade that spans a run of ones of the signal: it enters on a row
    where the signal has just risen, the signal is 1 on every row up to the
    exit row, and the exit row is the first 0 after the entry or the last
    row of the frame. *)
Definition spans_run (data : DataFrame) (sig : list float) (t : Donchian.Trade) : Prop :=
  exists j i bar_in bar_out,
    (j <= i < length data)%nat /\
    nth_error data j = Some bar_in /\ nth_error data i = Some bar_out /\
    Donchian.entry_time t = timestamp bar_in /\
    Donchian.entry_price t = close bar_in /\
    Donchian.exit_time t = timestamp bar_out /\
    Donchian.exit_price t = Some (close bar_out) /\
    (j = 0%nat \/ nth (j - 1) sig NaN = Some 0) /\
    (forall m, (j <= m < i)%nat -> nth m sig NaN = Some 1) /\
    ((j < i)%nat /\ nth i sig NaN = Some 0 \/
     (i = (length data - 1)%nat /\ nth i sig NaN = Some 1)).

(** The trade open before row [k]: entered on a row where the signal had
    just risen, with the signal at 1 ever since. *)
Definition open_since (data : DataFrame) (sig : list float) (k : nat)
    (ot : Donchian.Trade) : Prop :=
  exists j bar,
    (j < k)%nat /\ nth_error data j = Some bar /\
    Donchian.entry_time ot = timestamp bar /\
    Donchian.entry_price ot = close bar /\
    Donchian.exit_time ot = (-1)%Z /\
    (j = 0%nat \/ nth (j - 1) sig NaN = Some 0) /\
    (forall m, (j <= m < k)%nat -> nth m sig NaN = Some 1).

(** The state of the extraction loop before row [k] on a 0/1 signal. *)
Definition run_inv (data : DataFrame) (sig : list float) (k : nat)
    (st : Donchian.LoopState) : Prop :=
  Forall (spans_run data sig) (Donchian.long_trades st) /\
  Donchian.last_sig st = match k with O => Some 0 | S k' => nth k' sig NaN end /\
  match Donchian.open_trade st with
  | Some ot => Donchian.last_sig st = Some 1 /\ open_since data sig k ot
  | None => Donchian.last_sig st = Some 0
  end.

(** A trade of the backtest: entered on a row marked as an entry, exited
    on a row marked as an exit or on the last row, with no exit mark in
    between. *)
Definition follows_marks (data : DataFrame) (raw : list float)
    (t : Donchian.Trade) : Prop :=
  exists j i bar_in bar_out,
    (j <= i < length data)%nat /\
    nth_error data j = Some bar_in /\ nth_error data i = Some bar_out /\
    Donchian.entry_time t = timestamp bar_in /\
    Donchian.entry_price t = close bar_in /\
    Donchian.exit_time t = timestamp bar_out /\
    Donchian.exit_price t = Some (close bar_out) /\
    nth j raw NaN = Some 1 /\
    (forall m, (j < m < i)%nat -> nth m raw NaN <> Some 0) /\
    ((j < i)%nat /\ nth i raw NaN = Some 0 \/ i = (length data - 1)%nat).

(** * Properties *)

(** ** Column operations *)

Section ColumnFacts.

Lemma length_rolling_agg agg w xs : length (rolling_agg agg w xs) = length xs.
Proof. unfold rolling_agg. now rewrite length_map, length_seq. Qed.

Lemma length_shift1 l : length (shift1 l) = length l.
Proof.
  destruct l as [|x t]; [reflexivity|].
  unfold shift1. cbn [length]. rewrite removelast_firstn_len, length_firstn.
  cbn [length]. lia.
Qed.

Lemma length_ffill_from last l : length (ffill_from last l) = length l.
Proof.
  revert last; induction l as [|[v|] t IH]; intros last; cbn; auto.
Qed.

Lemma length_fillna0 l : length (fillna0 l) = length l.
Proof. apply length_map. Qed.

Lemma nth_rolling_agg agg w xs i :
  (i < length xs)%nat ->
  nth i (rolling_agg agg w xs) NaN =
  match window w i xs with None => NaN | Some l => agg l end.
Proof.
  intros Hi. unfold rolling_agg.
  set (f := fun i => match window w i xs with None => NaN | Some l => agg l end).
  rewrite (nth_indep _ NaN (f 0%nat)) by now rewrite length_map, length_seq.
  rewrite map_nth, seq_nth by assumption. reflexivity.
Qed.

Lemma nth_shift1_S l j :
  (S j < length l)%nat -> nth (S j) (shift1 l) NaN = nth j l NaN.
Proof.
  intros Hj. destruct l as [|x t]; [cbn in Hj; lia|].
  unfold shift1. cbn [nth]. rewrite removelast_firstn_len.
  rewrite nth_firstn. cbn [length] in *.
  destruct (Nat.ltb_spec j (Nat.pred (S (length t)))); [reflexivity | lia].
Qed.

Lemma nth_shift1_O l : nth 0 (shift1 l) NaN = NaN.
Proof. destruct l; reflexivity. Qed.

(** Before [w] bars have elapsed the shifted rolling column is NaN. *)
Lemma shifted_rolling_warmup agg w xs i :
  (i < w)%nat -> nth i (shift1 (rolling_agg agg w xs)) NaN = NaN.
Proof.
  intros Hi.
  destruct (Nat.lt_ge_cases i (length xs)) as [Hn|Hn].
  - destruct i as [|j]; [apply nth_shift1_O|].
    rewrite nth_shift1_S by (rewrite length_rolling_agg; lia).
    rewrite nth_rolling_agg by lia.
    unfold window. destruct (Nat.ltb_spec (j + 1) w); [reflexivity | lia].
  - apply nth_overflow. rewrite length_shift1, length_rolling_agg. lia.
Qed.

End ColumnFacts.

(** ** The signal generator *)

Section SignalFacts.

Import Donchian.

Lemma mark_cases c u l : mark c u l = NaN \/ binary (mark c u l).
Proof.
  unfold mark, binary.
  destruct (lt_float c l), (gt_float c u); auto.
Qed.

Lemma length_marks cs us ls :
  length us = length cs -> length ls = length cs ->
  length (marks cs us ls) = length cs.
Proof.
  revert us ls; induction cs as [|c cs IH]; intros [|u us] [|l ls]; cbn;
    try discriminate; auto.
Qed.

Lemma marks_values cs us ls :
  Forall (fun v => v = NaN \/ binary v) (marks cs us ls).
Proof.
  revert us ls; induction cs as [|c cs IH]; intros [|u us] [|l ls]; cbn;
    constructor; auto using mark_cases.
Qed.

Lemma nth_marks_nan cs us ls i :
  nth i us NaN = NaN -> nth i ls NaN = NaN -> nth i (marks cs us ls) NaN = NaN.
Proof.
  revert us ls i; induction cs as [|c cs IH]; intros [|u us] [|l ls] [|i];
    cbn; intros Hu Hl; auto.
  now subst.
Qed.

Lemma ffill_from_values last l :
  (last = NaN \/ binary last) ->
  Forall (fun v => v = NaN \/ binary v) l ->
  Forall (fun v => v = NaN \/ binary v) (ffill_from last l).
Proof.
  intros Hlast Hl; revert last Hlast.
  induction Hl as [|x t Hx Ht IH]; intros last Hlast; cbn; [constructor|].
  destruct x as [v|]; constructor; auto.
Qed.

Lemma nth_ffill_from_nan l i :
  (forall j, (j <= i)%nat -> nth j l NaN = NaN) ->
  nth i (ffill_from NaN l) NaN = NaN.
Proof.
  revert i; induction l as [|x t IH]; intros i H.
  - now destruct i.
  - pose proof (H 0%nat (Nat.le_0_l _)) as H0. cbn in H0. subst x. cbn.
    destruct i as [|i]; [reflexivity|].
    apply IH. intros j Hj. apply (H (S j)). lia.
Qed.

Lemma fix_first_values l :
  Forall (fun v => v = NaN \/ binary v) l ->
  Forall (fun v => v = NaN \/ binary v) (fix_first l).
Proof.
  intros H. destruct l as [|[v|] t]; cbn; auto.
  inversion H; subst. constructor; auto. right; left; reflexivity.
Qed.

Lemma length_fix_first l : length (fix_first l) = length l.
Proof. now destruct l as [|[v|] t]. Qed.

Lemma nth_fix_first_nan l i :
  nth i l NaN = NaN -> nth i (fix_first l) NaN = NaN \/ nth i (fix_first l) NaN = Some 0.
Proof.
  destruct l as [|[v|] t]; cbn; auto.
  destruct i; auto.
Qed.

Lemma fillna0_values l :
  Forall (fun v => v = NaN \/ binary v) l -> Forall binary (fillna0 l).
Proof.
  unfold fillna0. induction 1 as [|x t Hx Ht IH]; cbn; constructor; auto.
  destruct Hx as [->|[->| ->]]; [left|left|right]; reflexivity.
Qed.

Lemma nth_fillna0 l i :
  (i < length l)%nat ->
  nth i (fillna0 l) NaN =
  match nth i l NaN with None => Some 0 | Some v => Some v end.
Proof.
  revert i; induction l as [|x t IH]; intros [|i] Hi; cbn in *; try lia.
  - reflexivity.
  - apply IH. lia.
Qed.

End SignalFacts.

(** C5. For every lookback >= 2 and every non-empty candle series,
    [donchian_breakout] succeeds, its signal column has as many rows as
    the frame, every value is 0 or 1 (none is NaN), and every bar before
    the warm-up of [lookback - 1] bars is 0. *)
Theorem C5_signal_shape (df : DataFrame) (lookback : Z) :
  (2 <= lookback)%Z -> df <> [] ->
  exists ch, Donchian.donchian_breakout df lookback = Some ch /\
    length (Donchian.signal ch) = length df /\
    Forall binary (Donchian.signal ch) /\
    (forall i, (Z.of_nat i < lookback - 1)%Z -> (i < length df)%nat ->
               nth i (Donchian.signal ch) NaN = Some 0).
Proof.
  intros Hlb Hne. unfold Donchian.donchian_breakout.
  destruct (Z.ltb_spec (lookback - 1) 0) as [Hneg|_]; [lia|].
  eexists; split; [reflexivity|]. cbn [Donchian.signal].
  set (w := Z.to_nat (lookback - 1)).
  set (cs := map close df).
  set (raw := Donchian.marks cs _ _).
  assert (Hlen : length raw = length df).
  { unfold raw, rolling_max, rolling_min. rewrite length_marks; unfold cs;
      rewrite ?length_shift1, ?length_rolling_agg, ?length_map; reflexivity. }
  assert (Hlen' : length (Donchian.fix_first (ffill raw)) = length df).
  { unfold ffill. now rewrite length_fix_first, length_ffill_from. }
  repeat split.
  - now rewrite length_fillna0.
  - apply fillna0_values, fix_first_values, ffill_from_values.
    + now left.
    + apply marks_values.
  - intros i Hi Hin.
    rewrite nth_fillna0 by now rewrite Hlen'.
    assert (Hnan : nth i (ffill raw) NaN = NaN).
    { apply nth_ffill_from_nan. intros j Hj.
      apply nth_marks_nan; apply shifted_rolling_warmup; unfold w; lia. }
    destruct (nth_fix_first_nan _ _ Hnan) as [-> | ->]; reflexivity.
Qed.

Lemma C5_signal_shape_witness :
  exists ch, Donchian.donchian_breakout Samples.df_breakout 4 = Some ch /\
    length (Donchian.signal ch) = length Samples.df_breakout /\
    Forall binary (Donchian.signal ch) /\
    (forall i, (Z.of_nat i < 4 - 1)%Z -> (i < length Samples.df_breakout)%nat ->
               nth i (Donchian.signal ch) NaN = Some 0).
Proof. apply C5_signal_shape; [lia | discriminate]. Defined.

(** ** The trade extractor *)

Section IndexFacts.

Context {A : Type}.

Lemma pyget_nat (l : list A) i : pyget l (Z.of_nat i) = nth_error l i.
Proof.
  unfold pyget. destruct (Z.ltb_spec (Z.of_nat i) 0); [lia|].
  now rewrite Nat2Z.id.
Qed.

Lemma pyget_pred (l : list A) j : pyget l (Z.of_nat (S j) - 1) = nth_error l j.
Proof.
  replace (Z.of_nat (S j) - 1)%Z with (Z.of_nat j) by lia. apply pyget_nat.
Qed.

Lemma pyget_last (l : list A) :
  l <> [] -> pyget l (-1) = nth_error l (length l - 1).
Proof.
  intros Hne. unfold pyget. cbn [Z.ltb Z.compare].
  destruct l as [|x t]; [congruence|].
  destruct (Z.ltb_spec (Z.of_nat (length (x :: t)) + -1) 0) as [H|H];
    cbn [length] in *; [lia|].
  f_equal. lia.
Qed.

Lemma StronglySorted_snoc (R : A -> A -> Prop) l x :
  StronglySorted R l -> Forall (fun y => R y x) l -> StronglySorted R (l ++ [x]).
Proof.
  induction 1 as [|y l Hl IH Hy]; intros Hx; cbn.
  - repeat constructor.
  - inversion Hx; subst. constructor; auto.
    apply Forall_app; split; auto.
Qed.

End IndexFacts.

Lemma strictly_increasing_nth l :
  strictly_increasing l = true ->
  forall i j, (i < j < length l)%nat -> (nth i l 0 < nth j l 0)%Z.
Proof.
  induction l as [|x t IH]; intros Hs i j Hij; [cbn in Hij; lia|].
  assert (Ht : strictly_increasing t = true).
  { cbn in Hs. destruct t as [|y t']; [reflexivity|].
    now apply andb_true_iff in Hs. }
  assert (Hhead : forall m, (m < length t)%nat -> (x < nth m t 0)%Z).
  { intros m. induction m as [|m IHm]; intros Hm.
    - destruct t as [|y t']; [cbn in Hm; lia|].
      cbn in Hs. apply andb_true_iff in Hs. destruct Hs as [Hs _].
      apply Z.ltb_lt in Hs. exact Hs.
    - specialize (IH Ht m (S m)). assert (m < length t)%nat by lia.
      specialize (IHm H). assert (m < S m < length t)%nat by lia.
      specialize (IH H0). lia. }
  destruct j as [|j]; [lia|]. cbn [length] in Hij.
  destruct i as [|i]; cbn [nth].
  - apply Hhead. lia.
  - apply IH; [assumption | lia].
Qed.

Lemma is_one_not_zero c : is_one c = true -> is_zero c = false.
Proof.
  destruct c as [q|]; cbn; [|discriminate].
  intros H1. apply Qeq_bool_iff in H1.
  destruct (Qeq_bool q 0) eqn:H0; [|reflexivity].
  apply Qeq_bool_iff in H0. rewrite H0 in H1. discriminate H1.
Qed.

Lemma entries_before (l : list Donchian.Trade) z :
  Forall (fun t => (Donchian.entry_time t < Donchian.exit_time t)%Z) l ->
  Forall (fun t => (Donchian.exit_time t < z)%Z) l ->
  Forall (fun t => (Donchian.entry_time t < z)%Z) l.
Proof.
  intros H1 H2. rewrite Forall_forall in *. intros t Ht.
  specialize (H1 t Ht). specialize (H2 t Ht). lia.
Qed.

Lemma exits_no_overlap (l : list Donchian.Trade) (ot : Donchian.Trade) :
  Forall (fun t => (Donchian.exit_time t < Donchian.entry_time ot)%Z) l ->
  Forall (fun t => no_overlap t ot) l.
Proof.
  apply Forall_impl. unfold no_overlap. intros; lia.
Qed.

Section Extraction.

Import Donchian.

Variables (idx : list Z) (close_arr : list Q) (sig : list float).
Hypothesis Hinc : strictly_increasing idx = true.
Hypothesis Hclose : length close_arr = length idx.
Hypothesis Hsig : (length idx <= length sig)%nat.

Let T (i : nat) : Z := nth i idx 0%Z.
Let C (i : nat) : Q := nth i close_arr 0.

Lemma idx_at i : (i < length idx)%nat -> nth_error idx i = Some (T i).
Proof. intros. now apply nth_error_nth'. Qed.

Lemma close_at_row i : (i < length idx)%nat -> nth_error close_arr i = Some (C i).
Proof. intros. apply nth_error_nth'. lia. Qed.

Lemma T_lt i j : (i < j < length idx)%nat -> (T i < T j)%Z.
Proof. now apply strictly_increasing_nth. Qed.

Lemma loop_inv_init : loop_inv idx close_arr sig 0 (mkLoopState [] (Some 0) None).
Proof. constructor; cbn; try constructor; try discriminate. Qed.

Lemma past_weaken k (l : list Trade) :
  (forall i, (k <= i < length idx)%nat -> Forall (fun t => (exit_time t < T i)%Z) l) ->
  forall i, (S k <= i < length idx)%nat -> Forall (fun t => (exit_time t < T i)%Z) l.
Proof. intros H i Hi. apply H. lia. Qed.

(** One iteration succeeds on a row of the frame and keeps the invariant. *)
Lemma loop_body_inv k st :
  (k < length idx)%nat ->
  loop_inv idx close_arr sig k st ->
  exists st', loop_body idx close_arr sig st k = Some st' /\
              loop_inv idx close_arr sig (S k) st'.
Proof.
  intros Hk [Hclosed Hsorted Hstrict Hpast Hopen Hlong Hlast].
  unfold loop_body. rewrite !pyget_nat.
  destruct (nth_error sig k) as [cur|] eqn:Hcur;
    [|apply nth_error_None in Hcur; lia].
  cbn [bind]. rewrite (idx_at k Hk), (close_at_row k Hk).
  assert (HlastS : forall k', S k = S k' -> nth_error sig k' = Some cur)
    by (intros k' [= <-]; exact Hcur).
  destruct (is_one cur) eqn:Hone; cbn [andb].
  - (* current_signal == 1.0 *)
    rewrite (is_one_not_zero _ Hone).
    destruct (is_one (last_sig st)) eqn:Hl1; cbn [negb bind andb].
    + (* already long: nothing happens *)
      eexists; split; [reflexivity|].
      constructor; cbn; auto.
      * now apply past_weaken.
      * intros ot Hot. destruct (Hopen ot Hot) as (He & Hb & j & Hj & Hej & _).
        repeat split; auto. exists j. split; [lia|]. split; [assumption|].
        intros Hf; congruence.
    + (* entry transition *)
      destruct (open_trade st) as [ot|] eqn:Hot; cbn [bind].
      * (* an open trade is closed at the previous bar *)
        destruct (Hopen ot eq_refl) as (He & Hb & j & Hj & Hej & Hgap).
        specialize (Hgap eq_refl).
        destruct k as [|k']; [lia|].
        rewrite !pyget_pred.
        rewrite (idx_at k') by lia. rewrite (close_at_row k') by lia.
        cbn [bind andb last_sig long_trades open_trade].
        eexists; split; [reflexivity|].
        assert (HjT : (T j < T k')%Z) by (apply T_lt; lia).
        constructor; cbn [long_trades last_sig open_trade]; auto.
        -- apply Forall_app; split; auto. repeat constructor. cbn. unfold T in *. lia.
        -- apply StronglySorted_snoc; auto. now apply exits_no_overlap.
        -- apply StronglySorted_snoc; auto. cbn.
           apply entries_before; auto.
        -- intros i Hi. apply Forall_app; split; [apply Hpast; lia|].
           repeat constructor. cbn. apply T_lt. lia.
        -- intros ot' [= <-]. cbn. split; [reflexivity|]. split.
           ++ apply Forall_app; split; [apply Hpast; lia|].
              repeat constructor. cbn. apply T_lt. lia.
           ++ exists (S k'). split; [lia|]. split; [reflexivity|].
              intros Hf; congruence.
        -- discriminate.
      * (* no open trade: a new one is opened *)
        cbn [bind andb last_sig long_trades open_trade].
        eexists; split; [reflexivity|].
        constructor; cbn [long_trades last_sig open_trade]; auto.
        -- now apply past_weaken.
        -- intros ot' [= <-]. cbn. split; [reflexivity|]. split.
           ++ apply Hpast; lia.
           ++ exists k. split; [lia|]. split; [reflexivity|].
              intros Hf; congruence.
        -- discriminate.
  - (* current_signal != 1.0 *)
    cbn [bind].
    destruct (is_zero cur && is_one (last_sig st)) eqn:Hexit.
    + (* exit transition *)
      apply andb_true_iff in Hexit. destruct Hexit as [Hz Hl1].
      destruct (open_trade st) as [ot|] eqn:Hot;
        [|exfalso; now apply (Hlong Hl1)].
      destruct (Hopen ot eq_refl) as (He & Hb & j & Hj & Hej & _).
      cbn [bind].
      eexists; split; [reflexivity|].
      assert (HjT : (T j < T k)%Z) by (apply T_lt; lia).
      constructor; cbn [long_trades last_sig open_trade]; auto.
      * apply Forall_app; split; auto. repeat constructor. cbn. unfold T in *. lia.
      * apply StronglySorted_snoc; auto. now apply exits_no_overlap.
      * apply StronglySorted_snoc; auto. cbn. apply entries_before; auto.
      * intros i Hi. apply Forall_app; split; [apply Hpast; lia|].
        repeat constructor. cbn. apply T_lt. lia.
      * intros ot' H; discriminate.
      * intros H; congruence.
    + (* neither transition *)
      eexists; split; [reflexivity|].
      constructor; cbn [long_trades last_sig open_trade]; auto.
      * now apply past_weaken.
      * intros ot Hot. destruct (Hopen ot Hot) as (He & Hb & j & Hj & Hej & _).
        repeat split; auto. exists j. split; [lia|]. split; [assumption|].
        intros _; lia.
      * intros H; congruence.
Qed.

Lemma for_range_app body r1 r2 (st : LoopState) :
  for_range body (r1 ++ r2) st =
  (st' <- for_range body r1 st ;; for_range body r2 st').
Proof.
  revert st; induction r1 as [|i r1 IH]; intros st; cbn; [reflexivity|].
  destruct (body st i); cbn; auto.
Qed.

(** The loop runs to completion on every prefix of the rows. *)
Lemma loop_runs k :
  (k <= length idx)%nat ->
  exists st,
    for_range (loop_body idx close_arr sig) (seq 0 k)
      (mkLoopState [] (Some 0) None) = Some st /\
    loop_inv idx close_arr sig k st.
Proof.
  induction k as [|k IH]; intros Hk.
  - eexists; split; [reflexivity | apply loop_inv_init].
  - destruct IH as (st & Hrun & Hinv); [lia|].
    destruct (loop_body_inv k st) as (st' & Hstep & Hinv'); [lia | assumption |].
    exists st'. split; [|assumption].
    rewrite seq_S, for_range_app, Hrun. cbn. now rewrite Hstep.
Qed.

(** What the block after the loop returns, given the loop invariant at the
    end of the frame. *)
Lemma close_dangling_spec st :
  loop_inv idx close_arr sig (length idx) st ->
  close_dangling idx close_arr st =
  Some (long_trades st ++
        match open_trade st with
        | Some ot => [close_at ot (T (length idx - 1)) (C (length idx - 1))]
        | None => []
        end).
Proof.
  intros [_ _ _ _ Hopen _ _]. unfold close_dangling.
  destruct (open_trade st) as [ot|]; [|now rewrite app_nil_r].
  destruct (Hopen ot eq_refl) as (He & _ & j & Hj & _).
  rewrite He. cbn [Z.eqb Pos.eqb].
  assert (Hne : idx <> []) by (destruct idx; cbn in Hj; [lia | discriminate]).
  assert (Hne' : close_arr <> [])
    by (destruct close_arr; cbn in Hclose; [cbn in Hj; lia | discriminate]).
  rewrite (pyget_last idx Hne), (pyget_last close_arr Hne'), Hclose.
  rewrite idx_at, close_at_row by lia. reflexivity.
Qed.

End Extraction.

Lemma sort_index_sorted (l : list Donchian.Trade) :
  StronglySorted (fun a b => (Donchian.entry_time a < Donchian.entry_time b)%Z) l ->
  Donchian.sort_index l = l.
Proof.
  unfold Donchian.sort_index.
  induction 1 as [|x l Hl IH Hx]; [reflexivity|].
  cbn [fold_right]. rewrite IH. destruct l as [|u r]; [reflexivity|].
  cbn [Donchian.insert_by_entry]. inversion Hx as [|? ? Hu _]; subst.
  destruct (Z.leb_spec (Donchian.entry_time x) (Donchian.entry_time u));
    [reflexivity | lia].
Qed.

Lemma StronglySorted_impl {A} (R S : A -> A -> Prop) l :
  (forall a b, R a b -> S a b) -> StronglySorted R l -> StronglySorted S l.
Proof.
  intros HRS. induction 1 as [|x l Hl IH Hx]; constructor; auto.
  revert Hx. apply Forall_impl. auto.
Qed.

(** The extraction as a whole: it returns, and the returned rows are the
    loop's closed trades followed by the trade still open at the end. *)
Lemma extraction_result (data : DataFrame) (sig : list float) :
  strictly_increasing (map timestamp data) = true ->
  (length data <= length sig)%nat ->
  exists st,
    loop_inv (map timestamp data) (map close data) sig (length data) st /\
    let rows :=
      Donchian.long_trades st ++
      match Donchian.open_trade st with
      | Some ot => [Donchian.close_at ot
                      (nth (length data - 1) (map timestamp data) 0%Z)
                      (nth (length data - 1) (map close data) 0)]
      | None => []
      end in
    Donchian.get_trades_from_signal data sig =
    Some (Donchian.mkTradeTables rows [] (Donchian.sort_index rows)).
Proof.
  intros Hinc Hsig.
  assert (Hclose : length (map close data) = length (map timestamp data))
    by now rewrite !length_map.
  assert (Hsig' : (length (map timestamp data) <= length sig)%nat)
    by now rewrite length_map.
  destruct (loop_runs _ _ _ Hinc Hclose Hsig' (length data)) as (st & Hrun & Hinv);
    [now rewrite length_map|].
  exists st. split; [assumption|].
  unfold Donchian.get_trades_from_signal. rewrite Hrun. cbn [bind].
  rewrite <- (length_map timestamp data) in Hinv.
  rewrite close_dangling_spec with (sig := sig) by assumption.
  rewrite !length_map. reflexivity.
Qed.

Lemma iloc_last_nth {A} (l : list A) d :
  l <> [] -> iloc_last l = Some (nth (length l - 1) l d).
Proof.
  intros Hne. destruct l as [|x t]; [congruence|].
  unfold iloc_last. apply nth_error_nth'. cbn [length]. lia.
Qed.





(** *** Re-entry while a trade is open *)

Lemma pyget_some {A} (l : list A) k :
  (- Z.of_nat (length l) <= k < Z.of_nat (length l))%Z ->
  exists x, pyget l k = Some x.
Proof.
  intros Hk. unfold pyget.
  destruct (Z.ltb_spec k 0).
  - destruct (Z.ltb_spec (Z.of_nat (length l) + k) 0); [lia|].
    destruct (nth_error l (Z.to_nat (Z.of_nat (length l) + k))) eqn:E; eauto.
    apply nth_error_None in E. lia.
  - destruct (nth_error l (Z.to_nat k)) eqn:E; eauto.
    apply nth_error_None in E. lia.
Qed.

(** The loop body raises nothing on a row of the frame, whatever the
    state and the timestamps. *)
Lemma loop_body_total idx close_arr sig st i :
  length close_arr = length idx -> (length idx <= length sig)%nat ->
  (i < length idx)%nat ->
  exists st', Donchian.loop_body idx close_arr sig st i = Some st'.
Proof.
  intros Hc Hs Hi. unfold Donchian.loop_body.
  destruct (pyget_some sig (Z.of_nat i)) as [cur ->]; [lia|].
  destruct (pyget_some idx (Z.of_nat i)) as [t ->]; [lia|].
  destruct (pyget_some close_arr (Z.of_nat i)) as [p ->]; [lia|].
  destruct (pyget_some idx (Z.of_nat i - 1)) as [t' ->]; [lia|].
  destruct (pyget_some close_arr (Z.of_nat i - 1)) as [p' ->]; [lia|].
  cbn [bind].
  destruct (is_one cur && negb (is_one (Donchian.last_sig st)));
    [destruct (Donchian.open_trade st)|]; cbn [bind];
    match goal with
    | |- context [if ?c then _ else _] => destruct c
    end;
    cbn [Donchian.open_trade bind];
    try match goal with
    | |- context [match Donchian.open_trade ?s with _ => _ end] =>
        destruct (Donchian.open_trade s)
    end; cbn [bind]; eauto.
Qed.

Lemma for_range_total idx close_arr sig k :
  length close_arr = length idx -> (length idx <= length sig)%nat ->
  (k <= length idx)%nat ->
  forall st0, exists st,
    Donchian.for_range (Donchian.loop_body idx close_arr sig) (seq 0 k) st0 = Some st /\
    (k = 0%nat -> st = st0).
Proof.
  intros Hc Hs. induction k as [|k IH]; intros Hk st0.
  - exists st0; split; auto.
  - destruct (IH ltac:(lia) st0) as (st & Hrun & _).
    destruct (loop_body_total idx close_arr sig st k Hc Hs ltac:(lia)) as [st' Hst'].
    exists st'. split; [|discriminate].
    rewrite seq_S, for_range_app, Hrun. cbn. now rewrite Hst'.
Qed.

Lemma get_trades_total (data : DataFrame) (sig : list float) :
  (length data <= length sig)%nat ->
  exists r, Donchian.get_trades_from_signal data sig = Some r.
Proof.
  intros Hs. unfold Donchian.get_trades_from_signal.
  destruct (for_range_total (map timestamp data) (map close data) sig (length data))
    with (st0 := Donchian.mkLoopState [] (Some 0) None) as (st & -> & Hst0);
    rewrite ?length_map; auto.
  cbn [bind]. unfold Donchian.close_dangling.
  destruct (Donchian.open_trade st) as [ot|] eqn:Hot; cbn [bind]; eauto.
  destruct (Donchian.exit_time ot =? -1)%Z; cbn [bind]; eauto.
  destruct data as [|c0 data'].
  - rewrite (Hst0 eq_refl) in Hot. discriminate.
  - destruct (pyget_some (map timestamp (c0 :: data')) (-1)) as [t ->];
      [cbn [length map]; lia|].
    destruct (pyget_some (map close (c0 :: data')) (-1)) as [p ->];
      [cbn [length map]; lia|].
    cbn [bind]. eauto.
Qed.

(** C8 (as the code has it).  An entry transition met at a row while a
    trade is open raises no fault: the open trade is closed at the
    previous row (its timestamp and close), appended to the trade list,
    and a new trade is opened at the current row; and the extraction as a
    whole returns a trade table for every signal array covering the
    frame. *)
Theorem C8_reentry_closes_at_previous_bar
    (data : DataFrame) (sig : list float) (st : Donchian.LoopState)
    (i : nat) (cur : float) (ot : Donchian.Trade) (prev bar : Candle) :
  (length data <= length sig)%nat ->
  nth_error data i = Some prev ->
  nth_error data (S i) = Some bar ->
  nth_error sig (S i) = Some cur ->
  is_one cur = true ->
  is_one (Donchian.last_sig st) = false ->
  Donchian.open_trade st = Some ot ->
  Donchian.loop_body (map timestamp data) (map close data) sig st (S i) =
    Some (Donchian.mkLoopState
            (Donchian.long_trades st ++
             [Donchian.close_at ot (timestamp prev) (close prev)])
            cur
            (Some (Donchian.mkTrade (timestamp bar) (close bar) (-1) NaN))) /\
  exists r, Donchian.get_trades_from_signal data sig = Some r.
Proof.
  intros Hs Hprev Hbar Hcur Hone Hlast Hot.
  split; [|now apply get_trades_total].
  unfold Donchian.loop_body.
  rewrite !pyget_nat, !pyget_pred, Hcur. cbn [bind].
  rewrite Hone, Hlast, Hot. cbn [andb negb bind].
  rewrite (map_nth_error timestamp _ _ Hprev), (map_nth_error close _ _ Hprev).
  rewrite (map_nth_error timestamp _ _ Hbar), (map_nth_error close _ _ Hbar).
  cbn [bind Donchian.last_sig]. rewrite Hlast, andb_false_r. reflexivity.
Qed.

Lemma C8_reentry_closes_at_previous_bar_witness :
  Donchian.loop_body (map timestamp Samples.df_exit) (map close Samples.df_exit)
      Samples.sig_reentry
      (Donchian.mkLoopState [] (Some (1 # 2))
         (Some (Donchian.mkTrade 1 100 (-1) NaN))) 2 =
    Some (Donchian.mkLoopState
            [Donchian.mkTrade 1 100 2 (Some 110)]
            (Some 1)
            (Some (Donchian.mkTrade 3 120 (-1) NaN))) /\
  exists r, Donchian.get_trades_from_signal Samples.df_exit Samples.sig_reentry = Some r.
Proof.
  apply (C8_reentry_closes_at_previous_bar Samples.df_exit Samples.sig_reentry
           (Donchian.mkLoopState [] (Some (1 # 2))
              (Some (Donchian.mkTrade 1 100 (-1) NaN)))
           1 (Some 1) (Donchian.mkTrade 1 100 (-1) NaN)
           (Samples.bar 2 110) (Samples.bar 3 120));
    reflexivity.
Defined.

(** The C8 statement fails on the code: on five bars with the signal
    1, 0.5, 1, 0, 1 the second entry meets the trade opened on the first
    bar still open; no fault is raised, and that trade comes back in the
    table, closed at the second bar. *)
Lemma C8_reentry_is_absorbed :
  Donchian.entry_while_open Samples.df_exit Samples.sig_reentry = true /\
  Donchian.get_trades_from_signal Samples.df_exit Samples.sig_reentry =
    Some (Donchian.mkTradeTables
            [Donchian.mkTrade 1 100 2 (Some 110);
             Donchian.mkTrade 3 120 4 (Some 90);
             Donchian.mkTrade 5 95 5 (Some 95)]
            []
            [Donchian.mkTrade 1 100 2 (Some 110);
             Donchian.mkTrade 3 120 4 (Some 90);
             Donchian.mkTrade 5 95 5 (Some 95)]).
Proof. split; reflexivity. Qed.

(** ** The live decision engine *)

Section LiveFacts.

Lemma fold_min_le t : forall x, fold_left Qmin t x <= x.
Proof.
  induction t as [|y t IH]; intros x; cbn; [apply Qle_refl|].
  eapply Qle_trans; [apply IH | apply Q.le_min_l].
Qed.

Lemma fold_max_ge t : forall x, x <= fold_left Qmax t x.
Proof.
  induction t as [|y t IH]; intros x; cbn; [apply Qle_refl|].
  eapply Qle_trans; [apply Q.le_max_l | apply IH].
Qed.

Lemma list_min_le_max l a b :
  list_min l = Some a -> list_max l = Some b -> a <= b.
Proof.
  destruct l as [|x t]; cbn; [discriminate|].
  intros [= <-] [= <-].
  eapply Qle_trans; [apply fold_min_le | apply fold_max_ge].
Qed.

Lemma list_max_some l : l <> [] -> exists u, list_max l = Some u.
Proof. destruct l; [congruence | cbn; eauto]. Qed.

Lemma list_min_some l : l <> [] -> exists u, list_min l = Some u.
Proof. destruct l; [congruence | cbn; eauto]. Qed.

Lemma prior_window_nonempty {A} w (l : list A) :
  (1 <= w)%nat -> (w + 1 <= length l)%nat -> prior_window w l <> [].
Proof.
  intros Hw Hl Heq. apply (f_equal (@length A)) in Heq.
  unfold prior_window in Heq. rewrite length_firstn, length_skipn in Heq.
  cbn in Heq. lia.
Qed.

Lemma prior_window_map {A B} (f : A -> B) w (l : list A) :
  prior_window w (map f l) = map f (prior_window w l).
Proof.
  unfold prior_window. now rewrite length_map, skipn_map, firstn_map.
Qed.

(** The last cell of a shifted rolling aggregate is the aggregate of the
    [w] observations before the last one. *)
Lemma last_shifted_rolling agg w xs :
  (1 <= w)%nat -> (w + 1 <= length xs)%nat ->
  iloc_last (shift1 (rolling_agg agg w xs)) = Some (agg (prior_window w xs)).
Proof.
  intros Hw Hl.
  assert (Hne : shift1 (rolling_agg agg w xs) <> []).
  { intros Heq. apply (f_equal (@length float)) in Heq.
    rewrite length_shift1, length_rolling_agg in Heq. cbn in Heq. lia. }
  rewrite (iloc_last_nth _ NaN Hne), length_shift1, length_rolling_agg.
  replace (length xs - 1)%nat with (S (length xs - 2)) by lia.
  rewrite nth_shift1_S by (rewrite length_rolling_agg; lia).
  rewrite nth_rolling_agg by lia.
  unfold window, prior_window.
  destruct (Nat.ltb_spec (length xs - 2 + 1) w); [lia|].
  replace (length xs - 2 + 1 - w)%nat with (length xs - 1 - w)%nat by lia.
  reflexivity.
Qed.

Lemma nth_error_marks cs us ls i c u l :
  nth_error cs i = Some c -> nth_error us i = Some u -> nth_error ls i = Some l ->
  nth_error (Donchian.marks cs us ls) i = Some (Donchian.mark c u l).
Proof.
  revert us ls i; induction cs as [|c0 cs IH]; intros [|u0 us] [|l0 ls] [|i];
    cbn; try discriminate.
  - now intros [= ->] [= ->] [= ->].
  - apply IH.
Qed.

Lemma iloc_last_nth_error {A} (l : list A) x :
  iloc_last l = Some x -> nth_error l (length l - 1) = Some x.
Proof. destruct l; [discriminate | auto]. Qed.

Lemma mark_live_decision c u l :
  l <= u -> Donchian.mark c (Some u) (Some l) = option_map inject_Z (live_decision c u l).
Proof.
  intros Hlu. unfold Donchian.mark, live_decision, gt_float, lt_float, Qltb.
  destruct (u ?= c) eqn:Euc, (c ?= l) eqn:Ecl; try reflexivity.
  rewrite <- Qlt_alt in Euc, Ecl.
  exfalso. apply (Qlt_irrefl u).
  eapply Qlt_le_trans; [eapply Qlt_trans; eassumption | assumption].
Qed.

End LiveFacts.

(** The decision of the live engine on a frame with at least [lookback]
    candles: bands from the highs and lows of the [lookback - 1] candles
    before the last, tested against the last close. *)
Lemma live_decision_spec (df : DataFrame) (lookback : Z) :
  (2 <= lookback)%Z -> (lookback <= Z.of_nat (length df))%Z ->
  exists c u l,
    iloc_last (map close df) = Some c /\
    list_max (map high (prior_window (Z.to_nat (lookback - 1)) df)) = Some u /\
    list_min (map low (prior_window (Z.to_nat (lookback - 1)) df)) = Some l /\
    TradingBot.calculate_donchian_signal (Some df) lookback =
      ([TradingBot.LogBands c u l], live_decision c u l).
Proof.
  intros Hlb Hlen. set (w := Z.to_nat (lookback - 1)).
  assert (Hw : (1 <= w)%nat) by (unfold w; lia).
  assert (Hn : (w + 1 <= length df)%nat) by (unfold w; lia).
  destruct (list_max_some (map high (prior_window w df))) as [u Hu].
  { rewrite <- prior_window_map. apply prior_window_nonempty; rewrite ?length_map; lia. }
  destruct (list_min_some (map low (prior_window w df))) as [l Hl].
  { rewrite <- prior_window_map. apply prior_window_nonempty; rewrite ?length_map; lia. }
  assert (Hne : map close df <> []) by (destruct df; cbn in *; [lia | discriminate]).
  exists (nth (length (map close df) - 1) (map close df) 0), u, l.
  split; [now apply iloc_last_nth|]. split; [assumption|]. split; [assumption|].
  unfold TradingBot.calculate_donchian_signal.
  destruct (Z.ltb_spec (Z.of_nat (length df)) lookback); [lia|].
  destruct (Z.ltb_spec (lookback - 1) 0); [lia|]. fold w.
  unfold rolling_max, rolling_min.
  rewrite !last_shifted_rolling by (rewrite ?length_map; lia).
  rewrite !prior_window_map, Hu, Hl, (iloc_last_nth _ 0 Hne). reflexivity.
Qed.

Lemma flat_map_high (df : DataFrame) :
  Forall flat_candle df -> map high df = map close df /\ map low df = map close df.
Proof.
  induction 1 as [|b df [Hh Hl] _ [IHh IHl]]; cbn; [split; reflexivity|].
  now rewrite Hh, Hl, IHh, IHl.
Qed.

(** C1 (as the code has it).  With at least [lookback >= 2] candles the
    live engine takes its upper band from the highs and its lower band from
    the lows of the [lookback - 1] candles before the last one, and tests
    the last close against them.  On candles whose highs and lows coincide
    with their closes these are the signal generator's last-row bands, and
    the live Buy/Sell/no-signal result is the generator's last-row
    transition (1, 0 or NaN). *)
Theorem C1_live_channel_from_highs_and_lows (df : DataFrame) (lookback : Z) :
  (2 <= lookback)%Z -> (lookback <= Z.of_nat (length df))%Z ->
  exists c u l,
    iloc_last (map close df) = Some c /\
    list_max (map high (prior_window (Z.to_nat (lookback - 1)) df)) = Some u /\
    list_min (map low (prior_window (Z.to_nat (lookback - 1)) df)) = Some l /\
    TradingBot.calculate_donchian_signal (Some df) lookback =
      ([TradingBot.LogBands c u l], live_decision c u l) /\
    (Forall flat_candle df ->
     exists ch, Donchian.donchian_breakout df lookback = Some ch /\
       iloc_last (Donchian.upper ch) = Some (Some u) /\
       iloc_last (Donchian.lower ch) = Some (Some l) /\
       iloc_last (Donchian.raw_signal ch) =
         Some (option_map inject_Z (live_decision c u l))).
Proof.
  intros Hlb Hlen.
  destruct (live_decision_spec df lookback Hlb Hlen) as (c & u & l & Hc & Hu & Hl & Hlive).
  exists c, u, l. repeat (split; [assumption|]).
  intros Hflat. destruct (flat_map_high df Hflat) as [Hh Hlo].
  set (w := Z.to_nat (lookback - 1)) in *.
  assert (Hw : (1 <= w)%nat) by (unfold w; lia).
  assert (Hn : (w + 1 <= length (map close df))%nat) by (rewrite length_map; unfold w; lia).
  rewrite <- prior_window_map, Hh in Hu. rewrite <- prior_window_map, Hlo in Hl.
  unfold Donchian.donchian_breakout.
  destruct (Z.ltb_spec (lookback - 1) 0); [lia|]. fold w.
  eexists; split; [reflexivity|].
  cbn [Donchian.upper Donchian.lower Donchian.raw_signal].
  assert (Hup : iloc_last (shift1 (rolling_max w (map close df))) = Some (Some u)).
  { unfold rolling_max. rewrite last_shifted_rolling by assumption. now rewrite Hu. }
  assert (Hlw : iloc_last (shift1 (rolling_min w (map close df))) = Some (Some l)).
  { unfold rolling_min. rewrite last_shifted_rolling by assumption. now rewrite Hl. }
  repeat (split; [assumption|]).
  set (cs := map close df) in *.
  set (up := shift1 (rolling_max w cs)) in *.
  set (lo := shift1 (rolling_min w cs)) in *.
  assert (Hlen_up : length up = length cs)
    by (unfold up, rolling_max; now rewrite length_shift1, length_rolling_agg).
  assert (Hlen_lo : length lo = length cs)
    by (unfold lo, rolling_min; now rewrite length_shift1, length_rolling_agg).
  assert (Hlen_raw : length (Donchian.marks cs up lo) = length cs)
    by now apply length_marks.
  apply iloc_last_nth_error in Hc, Hup, Hlw.
  rewrite Hlen_up in Hup. rewrite Hlen_lo in Hlw.
  pose proof (nth_error_marks cs up lo _ c (Some u) (Some l) Hc Hup Hlw) as Hm.
  rewrite <- mark_live_decision by (eapply list_min_le_max; eassumption).
  rewrite <- Hlen_raw in Hm.
  destruct (Donchian.marks cs up lo) eqn:E; [|exact Hm].
  cbn in Hlen_raw. lia.
Qed.

Lemma C1_live_channel_from_highs_and_lows_witness :
  exists c u l,
    iloc_last (map close Samples.df_exit) = Some c /\
    list_max (map high (prior_window (Z.to_nat (3 - 1)) Samples.df_exit)) = Some u /\
    list_min (map low (prior_window (Z.to_nat (3 - 1)) Samples.df_exit)) = Some l /\
    TradingBot.calculate_donchian_signal (Some Samples.df_exit) 3 =
      ([TradingBot.LogBands c u l], live_decision c u l) /\
    (Forall flat_candle Samples.df_exit ->
     exists ch, Donchian.donchian_breakout Samples.df_exit 3 = Some ch /\
       iloc_last (Donchian.upper ch) = Some (Some u) /\
       iloc_last (Donchian.lower ch) = Some (Some l) /\
       iloc_last (Donchian.raw_signal ch) =
         Some (option_map inject_Z (live_decision c u l))).
Proof. apply C1_live_channel_from_highs_and_lows; cbn; lia. Defined.

(** The C1 statement fails on the code: on three candles with highs 12,
    lows 9 and closes 10, 10, 11 (lookback 3) the signal generator's last
    row has bands 10/10 from the closes and marks an entry (1), while the
    live engine has bands 12/9 from the highs and lows and returns no
    signal. *)
Lemma C1_live_differs_from_backtest :
  TradingBot.calculate_donchian_signal (Some Samples.df_wicks) 3 =
    ([TradingBot.LogBands 11 12 9], None) /\
  option_map (fun ch => (iloc_last (Donchian.upper ch),
                         iloc_last (Donchian.lower ch),
                         iloc_last (Donchian.raw_signal ch)))
    (Donchian.donchian_breakout Samples.df_wicks 3) =
    Some (Some (Some 10), Some (Some 10), Some (Some 1)).
Proof. split; reflexivity. Qed.

(** C2 (as the code has it).  With fewer than [lookback] candles, or no
    frame at all, the live engine returns None through its "Insufficient
    data" exit, so never a Buy or Sell; with at least [lookback] candles it
    does not take that exit. *)
Theorem C2_insufficient_data_below_lookback (df : DataFrame) (lookback : Z) :
  TradingBot.calculate_donchian_signal None lookback =
    ([TradingBot.LogInsufficientData lookback 0], None) /\
  ((Z.of_nat (length df) < lookback)%Z ->
   TradingBot.calculate_donchian_signal (Some df) lookback =
     ([TradingBot.LogInsufficientData lookback (length df)], None)) /\
  ((lookback <= Z.of_nat (length df))%Z ->
   reports_insufficient_data
     (TradingBot.calculate_donchian_signal (Some df) lookback) = false).
Proof.
  split; [reflexivity|]. unfold TradingBot.calculate_donchian_signal. split; intros H.
  - destruct (Z.ltb_spec (Z.of_nat (length df)) lookback); [reflexivity | lia].
  - destruct (Z.ltb_spec (Z.of_nat (length df)) lookback); [lia|].
    destruct (lookback - 1 <? 0)%Z; [reflexivity|].
    destruct (iloc_last _) as [[u|]|]; try reflexivity;
      destruct (iloc_last _) as [[l|]|]; try reflexivity;
      destruct (iloc_last _) as [c|]; reflexivity.
Qed.

Lemma C2_insufficient_data_below_lookback_witness :
  TradingBot.calculate_donchian_signal (Some (firstn 2 Samples.df_three)) 3 =
    ([TradingBot.LogInsufficientData 3 2], None) /\
  reports_insufficient_data
    (TradingBot.calculate_donchian_signal (Some Samples.df_three) 3) = false.
Proof.
  split.
  - apply (C2_insufficient_data_below_lookback (firstn 2 Samples.df_three) 3). cbn; lia.
  - apply (C2_insufficient_data_below_lookback Samples.df_three 3). cbn; lia.
Defined.

(** The C2 statement fails on the code: three candles are fewer than
    lookback + 1 = 4, and the live engine decides Buy on them. *)
Lemma C2_decides_on_lookback_candles :
  (Z.of_nat (length Samples.df_three) < 3 + 1)%Z /\
  TradingBot.calculate_donchian_signal (Some Samples.df_three) 3 =
    ([TradingBot.LogBands 120 110 100], Some 1%Z).
Proof. split; [cbn; lia | reflexivity]. Qed.

(** ** The order-execution logic *)

Lemma Qltb_lt x y : Qltb x y = true <-> x < y.
Proof.
  unfold Qltb. rewrite Qlt_alt. destruct (x ?= y); split; congruence.
Qed.

Lemma Qltb_ge x y : Qltb x y = false <-> y <= x.
Proof.
  split; intros H.
  - apply Qnot_lt_le. intros Hlt. apply Qltb_lt in Hlt. congruence.
  - destruct (Qltb x y) eqn:E; [|reflexivity].
    apply Qltb_lt in E. exfalso. exact (Qlt_not_le _ _ E H).
Qed.



(** C4. On a Sell decision a sell order is submitted only when the coin
    balance exceeds MIN_BTC_HOLDING = 0.00005 and balance times current
    price is at least MIN_KRW_ORDER = 100,000; the order is then for the
    whole coin balance.  When the balance is not above the dust threshold,
    or the estimated value is below the minimum, nothing is submitted; and
    no buy order is ever submitted on a Sell decision. *)
Theorem C4_sell_all_above_dust_and_minimum
    (ex : TradingBot.Exchange) (krw_available coin_balance : Q) :
  let tr := TradingBot.execute_trade_logic ex (Some 0%Z) krw_available coin_balance in
  (forall limit_price quantity,
     In (limit_price, quantity) (TradingBot.submitted TradingBot.Sell tr) ->
     TradingBot.MIN_BTC_HOLDING < coin_balance /\
     quantity = coin_balance /\
     exists current_price,
       TradingBot.get_current_price ex = Some current_price /\
       TradingBot.MIN_KRW_ORDER <= coin_balance * current_price /\
       limit_price = TradingBot.round_half_even (current_price * (998 # 1000))) /\
  (forall current_price,
     TradingBot.MIN_BTC_HOLDING < coin_balance ->
     TradingBot.get_current_price ex = Some current_price ->
     TradingBot.MIN_KRW_ORDER <= coin_balance * current_price ->
     TradingBot.submitted TradingBot.Sell tr =
       [(TradingBot.round_half_even (current_price * (998 # 1000)), coin_balance)]) /\
  (coin_balance <= TradingBot.MIN_BTC_HOLDING ->
   TradingBot.submitted TradingBot.Sell tr = []) /\
  (forall current_price,
     TradingBot.get_current_price ex = Some current_price ->
     coin_balance * current_price < TradingBot.MIN_KRW_ORDER ->
     TradingBot.submitted TradingBot.Sell tr = []) /\
  TradingBot.submitted TradingBot.Buy tr = [].
Proof.
  unfold TradingBot.execute_trade_logic.
  cbn [TradingBot.signal_is Z.eqb Pos.eqb andb].
  destruct (Qltb TradingBot.MIN_BTC_HOLDING coin_balance) eqn:Hhold.
  - apply Qltb_lt in Hhold.
    destruct (TradingBot.get_current_price ex) as [p|] eqn:Hp.
    + destruct (Qle_bool TradingBot.MIN_KRW_ORDER (coin_balance * p)) eqn:Hval.
      * apply Qle_bool_iff in Hval.
        assert (Hsub : forall r,
                  TradingBot.submitted TradingBot.Sell
                    [TradingBot.OrderAttempt TradingBot.Sell
                       (TradingBot.round_half_even (p * (998 # 1000))) coin_balance;
                     TradingBot.SubmitLimitOrder TradingBot.Sell
                       (TradingBot.round_half_even (p * (998 # 1000))) coin_balance;
                     TradingBot.order_outcome TradingBot.Sell r] =
                  [(TradingBot.round_half_even (p * (998 # 1000)), coin_balance)])
          by (intros []; reflexivity).
        cbv zeta. rewrite Hsub. repeat split.
        -- assumption.
        -- destruct H as [[= _ <-]|[]]. reflexivity.
        -- destruct H as [[= <- _]|[]]. exists p. auto.
        -- intros cp _ [= <-] _. reflexivity.
        -- intros Hle. exfalso. exact (Qlt_not_le _ _ Hhold Hle).
        -- intros cp [= <-] Hlt. exfalso. exact (Qlt_not_le _ _ Hlt Hval).
        -- destruct (TradingBot.sell_limit_order ex _ _); reflexivity.
      * cbn. repeat split; try contradiction; try reflexivity.
        intros cp _ [= <-] Hle. apply Qle_bool_iff in Hle. congruence.
    + cbn. repeat split; try contradiction; try reflexivity.
      intros cp _ [=].
  - cbn. repeat split; try contradiction; try reflexivity.
    intros cp Hlt. apply Qltb_lt in Hlt. congruence.
Qed.

Lemma C4_sell_all_above_dust_and_minimum_witness :
  TradingBot.submitted TradingBot.Sell
    (TradingBot.execute_trade_logic
       (TradingBot.mkExchange (fun _ => None) None (Some 100000000)
          (fun _ _ => TradingBot.Rejected) (fun _ _ => TradingBot.Accepted 9))
       (Some 0%Z) 0 (1 # 100)) =
  [(99800000%Z, 1 # 100)].
Proof.
  destruct (C4_sell_all_above_dust_and_minimum
              (TradingBot.mkExchange (fun _ => None) None (Some 100000000)
                 (fun _ _ => TradingBot.Rejected) (fun _ _ => TradingBot.Accepted 9))
              0 (1 # 100)) as (_ & Hsell & _).
  apply (Hsell 100000000).
  - unfold TradingBot.MIN_BTC_HOLDING, Qlt; cbn; lia.
  - reflexivity.
  - unfold TradingBot.MIN_KRW_ORDER, Qle; cbn; lia.
Defined.

(** ** The Sortino ratio *)

Section SortinoFacts.

Import Metrics.
Local Open Scope R_scope.

Lemma sortino_short (returns : list R) rf target :
  (length returns < 2)%nat -> calculate_sortino_ratio returns rf target = MNaN.
Proof.
  intros H. unfold calculate_sortino_ratio.
  destruct (Nat.ltb_spec (length returns) 2); [reflexivity | lia].
Qed.

Lemma std_some_length l d : std l = Some d -> (2 <= length l)%nat.
Proof.
  unfold std. destruct (Nat.ltb_spec (length l) 2); [discriminate | auto].
Qed.

End SortinoFacts.




(** ** The runs indicator *)

Section RunsFacts.

Import RunsIndicator.

Variable runs_test : list Q -> float.

Lemma length_set_nth {A} (l : list A) i v : length (set_nth l i v) = length l.
Proof.
  revert i; induction l as [|x t IH]; intros [|i]; cbn; auto.
Qed.

Lemma nth_set_nth_other {A} (l : list A) i j v d :
  i <> j -> nth j (set_nth l i v) d = nth j l d.
Proof.
  revert i j; induction l as [|x t IH]; intros [|i] [|j] H; cbn; auto.
  - congruence.
Qed.

Lemma indicator_step_shape lb cs ind i :
  length (indicator_step runs_test lb cs ind i) = length ind /\
  forall j, j <> i ->
    nth j (indicator_step runs_test lb cs ind i) (Some 0) = nth j ind (Some 0).
Proof.
  unfold indicator_step.
  destruct (2 <=? length _)%nat; split; auto.
  - apply length_set_nth.
  - intros j Hj. apply nth_set_nth_other. congruence.
Qed.

Lemma indicator_loop_shape lb cs range :
  forall ind,
  length (fold_left (indicator_step runs_test lb cs) range ind) = length ind /\
  forall j, ~ In j range ->
    nth j (fold_left (indicator_step runs_test lb cs) range ind) (Some 0)
    = nth j ind (Some 0).
Proof.
  induction range as [|i range IH]; intros ind; cbn [fold_left]; [auto|].
  destruct (IH (indicator_step runs_test lb cs ind i)) as [Hl Hn].
  destruct (indicator_step_shape lb cs ind i) as [Hl' Hn'].
  split; [congruence|].
  intros j Hj. rewrite Hn by (intros H; apply Hj; now right).
  apply Hn'. intros ->. apply Hj. now left.
Qed.

Lemma map_fst_combine {A B} (l : list A) (l' : list B) :
  length l = length l' -> map fst (combine l l') = l.
Proof.
  revert l'; induction l as [|x t IH]; intros [|y t'] H; cbn in *;
    try discriminate; auto.
  f_equal. apply IH. lia.
Qed.

Lemma map_snd_combine {A B} (l : list A) (l' : list B) :
  length l = length l' -> map snd (combine l l') = l'.
Proof.
  revert l'; induction l as [|x t IH]; intros [|y t'] H; cbn in *;
    try discriminate; auto.
  f_equal. apply IH. lia.
Qed.

(** The value column of the result, before it is paired with the index. *)
Lemma runs_values (close : Series) (lookback : Z) :
  exists ind,
    runs_trend_indicator runs_test close lookback = combine (map fst close) ind /\
    length ind = length close /\
    ((lookback <= 1)%Z \/ (Z.of_nat (length close) < lookback)%Z ->
     ind = repeat NaN (length close)) /\
    (forall i, (Z.of_nat i < lookback)%Z -> (i < length close)%nat ->
               nth i ind (Some 0) = NaN).
Proof.
  unfold runs_trend_indicator.
  destruct ((lookback <=? 1)%Z || (Z.of_nat (length close) <? lookback)%Z) eqn:G.
  - exists (repeat NaN (length close)). repeat split; auto using repeat_length.
    intros i _ Hi. rewrite nth_repeat_lt by assumption. reflexivity.
  - apply orb_false_iff in G. destruct G as [G1 G2].
    apply Z.leb_gt in G1. apply Z.ltb_ge in G2.
    eexists; split; [reflexivity|].
    match goal with
    | |- context [fold_left ?f ?r ?a] =>
        destruct (indicator_loop_shape (Z.to_nat lookback)
                    (map sign (diff (map snd close))) r a) as [Hl Hn]
    end.
    rewrite repeat_length in Hl.
    repeat split; auto.
    + intros [H|H]; lia.
    + intros i Hi Hin. rewrite Hn.
      * rewrite nth_repeat_lt by assumption. reflexivity.
      * rewrite in_seq. lia.
Qed.

End RunsFacts.

(** C10. Whatever [runs_test] computes, [runs_trend_indicator] returns for
    every close series and every integer lookback a series of the input's
    length carrying the input's index; with [lookback <= 1] or fewer than
    [lookback] rows every value is NaN; and in every case the values at the
    first [lookback] positions are NaN. *)
Theorem C10_runs_indicator_shape
    (runs_test : list Q -> float) (close : RunsIndicator.Series) (lookback : Z) :
  let out := RunsIndicator.runs_trend_indicator runs_test close lookback in
  length out = length close /\
  map fst out = map fst close /\
  ((lookback <= 1)%Z \/ (Z.of_nat (length close) < lookback)%Z ->
   map snd out = repeat NaN (length close)) /\
  (forall i, (Z.of_nat i < lookback)%Z -> (i < length close)%nat ->
             nth i (map snd out) (Some 0) = NaN).
Proof.
  destruct (runs_values runs_test close lookback) as (ind & -> & Hl & Hg & Hn).
  cbv zeta.
  assert (Hlen : length (map fst close) = length ind) by now rewrite length_map.
  rewrite map_fst_combine, map_snd_combine by assumption.
  repeat split; auto.
  rewrite length_combine, length_map, Hl. apply Nat.min_id.
Qed.

(** * Further properties of the code *)

(** ** The signal column as a scan *)

Lemma fillna0_ffill_from last l :
  fillna0 (ffill_from last l) =
  ffill_from (match last with None => Some 0 | Some v => Some v end) l.
Proof.
  revert last; induction l as [|[v|] t IH]; intros last; cbn.
  - reflexivity.
  - f_equal. apply (IH (Some v)).
  - f_equal. apply IH.
Qed.

Lemma fillna0_fix_first l : fillna0 (Donchian.fix_first l) = fillna0 l.
Proof. now destruct l as [|[v|] t]. Qed.

Lemma nth_ffill_from last l i :
  (i < length l)%nat ->
  nth i (ffill_from last l) NaN =
  match nth i l NaN with
  | Some v => Some v
  | None => match i with
            | O => last
            | S j => nth j (ffill_from last l) NaN
            end
  end.
Proof.
  revert last i; induction l as [|x t IH]; intros last i Hi; [cbn in Hi; lia|].
  destruct i as [|i].
  - destruct x; reflexivity.
  - cbn [length] in Hi. assert (Hi' : (i < length t)%nat) by lia.
    destruct x as [v|]; cbn [ffill_from nth].
    + rewrite IH by assumption. destruct (nth i t NaN); [reflexivity|].
      destruct i; reflexivity.
    + rewrite IH by assumption. destruct (nth i t NaN); [reflexivity|].
      destruct i; reflexivity.
Qed.

(** The signal column is the forward fill of the marks, started at 0. *)
Lemma signal_is_ffill (df : DataFrame) (lookback : Z) (ch : Donchian.Channels) :
  Donchian.donchian_breakout df lookback = Some ch ->
  Donchian.signal ch = ffill_from (Some 0) (Donchian.raw_signal ch) /\
  length (Donchian.raw_signal ch) = length df.
Proof.
  unfold Donchian.donchian_breakout.
  destruct (lookback - 1 <? 0)%Z; [discriminate|].
  intros [= <-]. cbn [Donchian.signal Donchian.raw_signal]. split.
  - rewrite fillna0_fix_first. unfold ffill. now rewrite fillna0_ffill_from.
  - unfold rolling_max, rolling_min. rewrite length_marks;
      rewrite ?length_shift1, ?length_rolling_agg, ?length_map; reflexivity.
Qed.

Lemma signal_scan (df : DataFrame) (lookback : Z) (ch : Donchian.Channels) :
  Donchian.donchian_breakout df lookback = Some ch ->
  forall i, (i < length df)%nat ->
    nth i (Donchian.signal ch) NaN =
    match nth i (Donchian.raw_signal ch) NaN with
    | Some v => Some v
    | None => match i with
              | O => Some 0
              | S j => nth j (Donchian.signal ch) NaN
              end
    end.
Proof.
  intros Hch i Hi. destruct (signal_is_ffill df lookback ch Hch) as [-> Hlen].
  apply nth_ffill_from. now rewrite Hlen.
Qed.

(** The signal column is a left-to-right scan of the breakout marks: a
    row marked 1 or 0 takes that value, an unmarked row repeats the row
    above it, and an unmarked first row is 0. *)
Theorem signal_holds_last_mark (df : DataFrame) (lookback : Z) (ch : Donchian.Channels) :
  Donchian.donchian_breakout df lookback = Some ch ->
  forall i, (i < length df)%nat ->
    nth i (Donchian.signal ch) NaN =
    match nth i (Donchian.raw_signal ch) NaN with
    | Some v => Some v
    | None => match i with
              | O => Some 0
              | S j => nth j (Donchian.signal ch) NaN
              end
    end.
Proof.
  intros Hch i Hi.
  destruct (signal_is_ffill df lookback ch Hch) as [Hsig Hlen].
  rewrite Hsig. apply nth_ffill_from. rewrite Hlen. exact Hi.
Qed.

Lemma signal_holds_last_mark_witness :
  nth 4 [Some 0; Some 0; Some 1; Some 0; Some 0] NaN =
  nth 3 [Some 0; Some 0; Some 1; Some 0; Some 0] NaN.
Proof.
  apply (signal_holds_last_mark Samples.df_exit 3
           (Donchian.mkChannels
              [NaN; NaN; Some 110; Some 120; Some 120]
              [NaN; NaN; Some 100; Some 110; Some 90]
              [NaN; NaN; Some 1; Some 0; NaN]
              [Some 0; Some 0; Some 1; Some 0; Some 0])
           eq_refl 4%nat).
  cbn; lia.
Defined.

(** ** What a breakout mark means *)

Section MarkFacts.

Lemma nth_shifted_rolling agg w xs i :
  (1 <= w <= i)%nat -> (i < length xs)%nat ->
  nth i (shift1 (rolling_agg agg w xs)) NaN = agg (firstn w (skipn (i - w) xs)).
Proof.
  intros Hw Hi. destruct i as [|j]; [lia|].
  rewrite nth_shift1_S by (rewrite length_rolling_agg; lia).
  rewrite nth_rolling_agg by lia. unfold window.
  destruct (Nat.ltb_spec (j + 1) w); [lia|].
  replace (j + 1 - w)%nat with (S j - w)%nat by lia. reflexivity.
Qed.

Lemma fold_max_lt t : forall x c,
  fold_left Qmax t x < c <-> x < c /\ Forall (fun y => y < c) t.
Proof.
  induction t as [|y t IH]; intros x c; cbn.
  - split; [intros H; split; [assumption | constructor] | tauto].
  - rewrite IH, Q.max_lub_lt_iff. split.
    + intros [[Hx Hy] Ht]. auto.
    + intros [Hx Hyt]. inversion Hyt; subst. auto.
Qed.

Lemma fold_min_gt t : forall x c,
  c < fold_left Qmin t x <-> c < x /\ Forall (fun y => c < y) t.
Proof.
  induction t as [|y t IH]; intros x c; cbn.
  - split; [intros H; split; [assumption | constructor] | tauto].
  - rewrite IH, Q.min_glb_lt_iff. split.
    + intros [[Hx Hy] Ht]. auto.
    + intros [Hx Hyt]. inversion Hyt; subst. auto.
Qed.

Lemma list_max_lt l u c :
  list_max l = Some u -> (u < c <-> Forall (fun y => y < c) l).
Proof.
  destruct l as [|x t]; cbn; [discriminate|]. intros [= <-].
  rewrite fold_max_lt. split.
  - intros [Hx Ht]. now constructor.
  - intros H. inversion H; subst. auto.
Qed.

Lemma list_min_gt l u c :
  list_min l = Some u -> (c < u <-> Forall (fun y => c < y) l).
Proof.
  destruct l as [|x t]; cbn; [discriminate|]. intros [= <-].
  rewrite fold_min_gt. split.
  - intros [Hx Ht]. now constructor.
  - intros H. inversion H; subst. auto.
Qed.

(** The cells of a window, by row number. *)
Lemma Forall_window (P : Q -> Prop) w a (xs : list Q) :
  (a + w <= length xs)%nat ->
  (Forall P (firstn w (skipn a xs)) <->
   forall j, (a <= j < a + w)%nat -> P (nth j xs 0)).
Proof.
  intros Hlen.
  assert (Hl : length (firstn w (skipn a xs)) = w)
    by (rewrite length_firstn, length_skipn; lia).
  rewrite Forall_nth. split.
  - intros H j Hj. specialize (H (j - a)%nat 0). rewrite Hl in H.
    rewrite nth_firstn, nth_skipn in H.
    destruct (Nat.ltb_spec (j - a) w); [|lia].
    replace (a + (j - a))%nat with j in H by lia. apply H. lia.
  - intros H k d Hk. rewrite Hl in Hk.
    rewrite (nth_indep _ d 0) by now rewrite Hl.
    rewrite nth_firstn, nth_skipn.
    destruct (Nat.ltb_spec k w); [|lia]. apply H. lia.
Qed.

Lemma nth_marks cs us ls i :
  (i < length cs)%nat -> length us = length cs -> length ls = length cs ->
  nth i (Donchian.marks cs us ls) NaN =
  Donchian.mark (nth i cs 0) (nth i us NaN) (nth i ls NaN).
Proof.
  revert us ls i; induction cs as [|c cs IH]; intros [|u us] [|l ls] i Hi Hu Hl;
    cbn in *; try lia.
  destruct i as [|i]; [reflexivity|]. apply IH; lia.
Qed.

Lemma mark_is_one c u l :
  l <= u ->
  (Donchian.mark c (Some u) (Some l) = Some 1 <-> u < c).
Proof.
  intros Hlu. unfold Donchian.mark, gt_float, lt_float.
  destruct (Qltb c l) eqn:Ecl.
  - apply Qltb_lt in Ecl. split; [discriminate|].
    intros Huc. exfalso. apply (Qlt_irrefl u).
    eapply Qlt_le_trans; [eapply Qlt_trans; eassumption | assumption].
  - destruct (Qltb u c) eqn:Euc.
    + apply Qltb_lt in Euc. tauto.
    + split; [discriminate|]. intros H. apply Qltb_lt in H. congruence.
Qed.

Lemma mark_is_zero c u l :
  Donchian.mark c u (Some l) = Some 0 <-> c < l.
Proof.
  unfold Donchian.mark, lt_float.
  destruct (Qltb c l) eqn:Ecl.
  - apply Qltb_lt in Ecl. tauto.
  - split.
    + destruct (gt_float c u); discriminate.
    + intros H. apply Qltb_lt in H. congruence.
Qed.

End MarkFacts.

(** A row is marked as an entry exactly when [lookback - 1] rows precede
    it and its close is strictly above the close of each of the
    [lookback - 1] rows before it; it is marked as an exit exactly when
    its close is strictly below each of them. *)
Theorem breakout_mark_meaning
    (df : DataFrame) (lookback : Z) (ch : Donchian.Channels) (i : nat) :
  (2 <= lookback)%Z ->
  Donchian.donchian_breakout df lookback = Some ch ->
  (i < length df)%nat ->
  let w := Z.to_nat (lookback - 1) in
  let c := fun j => nth j (map close df) 0 in
  (nth i (Donchian.raw_signal ch) NaN = Some 1 <->
   (w <= i)%nat /\ forall j, (i - w <= j < i)%nat -> c j < c i) /\
  (nth i (Donchian.raw_signal ch) NaN = Some 0 <->
   (w <= i)%nat /\ forall j, (i - w <= j < i)%nat -> c i < c j).
Proof.
  intros Hlb. unfold Donchian.donchian_breakout.
  destruct (Z.ltb_spec (lookback - 1) 0); [lia|].
  intros Heq Hi. injection Heq as <-. cbv zeta. cbn [Donchian.raw_signal].
  set (w := Z.to_nat (lookback - 1)). set (c := fun j => nth j (map close df) 0).
  set (cs := map close df).
  assert (Hn : length cs = length df) by apply length_map.
  assert (Hw : (1 <= w)%nat) by (unfold w; lia).
  rewrite nth_marks;
    [| lia
     | unfold rolling_max; now rewrite length_shift1, length_rolling_agg
     | unfold rolling_min; now rewrite length_shift1, length_rolling_agg].
  destruct (Nat.lt_ge_cases i w) as [Hiw|Hiw].
  - unfold rolling_max, rolling_min.
    rewrite !shifted_rolling_warmup by assumption. cbn. split; split;
      try discriminate; intros [Hwi _]; lia.
  - unfold rolling_max, rolling_min.
    rewrite !nth_shifted_rolling by lia.
    set (win := firstn w (skipn (i - w) cs)).
    assert (Hne : win <> []).
    { intros Heq. apply (f_equal (@length Q)) in Heq. unfold win in Heq.
      rewrite length_firstn, length_skipn in Heq. cbn in Heq. lia. }
    destruct (list_max_some win Hne) as [u Hu].
    destruct (list_min_some win Hne) as [l Hl].
    rewrite Hu, Hl.
    pose proof (list_min_le_max _ _ _ Hl Hu) as Hlu.
    assert (Hrange : forall P : Q -> Prop,
               Forall P win <-> forall j, (i - w <= j < i)%nat -> P (nth j cs 0)).
    { intros P. unfold win. rewrite Forall_window by lia.
      replace (i - w + w)%nat with i by lia. reflexivity. }
    split.
    + rewrite (mark_is_one _ _ _ Hlu), (list_max_lt _ _ (nth i cs 0) Hu), Hrange.
      unfold c. fold cs. tauto.
    + rewrite mark_is_zero, (list_min_gt _ _ (nth i cs 0) Hl), Hrange.
      unfold c. fold cs. tauto.
Qed.

Lemma breakout_mark_meaning_witness :
  (nth 2 [NaN; NaN; Some 1; Some 0; NaN] NaN = Some 1 <->
   (Z.to_nat (3 - 1) <= 2)%nat /\
   forall j, (2 - Z.to_nat (3 - 1) <= j < 2)%nat ->
             nth j (map close Samples.df_exit) 0 < nth 2 (map close Samples.df_exit) 0) /\
  (nth 2 [NaN; NaN; Some 1; Some 0; NaN] NaN = Some 0 <->
   (Z.to_nat (3 - 1) <= 2)%nat /\
   forall j, (2 - Z.to_nat (3 - 1) <= j < 2)%nat ->
             nth 2 (map close Samples.df_exit) 0 < nth j (map close Samples.df_exit) 0).
Proof.
  apply (breakout_mark_meaning Samples.df_exit 3
           (Donchian.mkChannels
              [NaN; NaN; Some 110; Some 120; Some 120]
              [NaN; NaN; Some 100; Some 110; Some 90]
              [NaN; NaN; Some 1; Some 0; NaN]
              [Some 0; Some 0; Some 1; Some 0; Some 0])
           2%nat); [lia | reflexivity | cbn; lia].
Defined.

(** ** The live engine against the signal generator *)

Section LiveVersusBacktest.

Lemma fold_max_mono t t' : Forall2 Qle t t' ->
  forall x x', x <= x' -> fold_left Qmax t x <= fold_left Qmax t' x'.
Proof.
  induction 1 as [|y y' t t' Hy Ht IH]; intros x x' Hx; cbn; [assumption|].
  apply IH. now apply Q.max_le_compat.
Qed.

Lemma fold_min_mono t t' : Forall2 Qle t t' ->
  forall x x', x <= x' -> fold_left Qmin t x <= fold_left Qmin t' x'.
Proof.
  induction 1 as [|y y' t t' Hy Ht IH]; intros x x' Hx; cbn; [assumption|].
  apply IH. now apply Q.min_le_compat.
Qed.

Lemma list_max_mono l l' a b :
  Forall2 Qle l l' -> list_max l = Some a -> list_max l' = Some b -> a <= b.
Proof.
  intros H. destruct H as [|x x' t t' Hx Ht]; cbn; [discriminate|].
  intros [= <-] [= <-]. now apply fold_max_mono.
Qed.

Lemma list_min_mono l l' a b :
  Forall2 Qle l l' -> list_min l = Some a -> list_min l' = Some b -> a <= b.
Proof.
  intros H. destruct H as [|x x' t t' Hx Ht]; cbn; [discriminate|].
  intros [= <-] [= <-]. now apply fold_min_mono.
Qed.

Lemma Forall2_map_le {A} (f g : A -> Q) (l : list A) :
  Forall (fun x => f x <= g x) l -> Forall2 Qle (map f l) (map g l).
Proof. induction 1; cbn; constructor; auto. Qed.

Lemma Forall_firstn_keeps {A} (P : A -> Prop) n (l : list A) :
  Forall P l -> Forall P (firstn n l).
Proof.
  intros H; revert n; induction H; intros [|n]; cbn; constructor; auto.
Qed.

Lemma Forall_skipn_keeps {A} (P : A -> Prop) n (l : list A) :
  Forall P l -> Forall P (skipn n l).
Proof.
  intros H; revert n; induction H; intros [|n]; cbn; auto.
Qed.

Lemma Forall_prior_window {A} (P : A -> Prop) w (l : list A) :
  Forall P l -> Forall P (prior_window w l).
Proof.
  intros H. unfold prior_window.
  now apply Forall_firstn_keeps, Forall_skipn_keeps.
Qed.

(** The last row of the signal generator's frame. *)
Lemma backtest_last_row (df : DataFrame) (lookback : Z) (ch : Donchian.Channels) :
  (2 <= lookback)%Z -> (lookback <= Z.of_nat (length df))%Z ->
  Donchian.donchian_breakout df lookback = Some ch ->
  exists c u l,
    iloc_last (map close df) = Some c /\
    list_max (map close (prior_window (Z.to_nat (lookback - 1)) df)) = Some u /\
    list_min (map close (prior_window (Z.to_nat (lookback - 1)) df)) = Some l /\
    nth (length df - 1) (Donchian.raw_signal ch) NaN =
      Donchian.mark c (Some u) (Some l).
Proof.
  intros Hlb Hlen. unfold Donchian.donchian_breakout.
  destruct (Z.ltb_spec (lookback - 1) 0); [lia|].
  intros Heq. injection Heq as <-. cbn [Donchian.raw_signal].
  set (w := Z.to_nat (lookback - 1)). set (cs := map close df).
  assert (Hn : length cs = length df) by apply length_map.
  assert (Hw : (1 <= w)%nat) by (unfold w; lia).
  assert (Hwn : (w + 1 <= length df)%nat) by (unfold w; lia).
  assert (Hne : prior_window w cs <> [])
    by (apply prior_window_nonempty; lia).
  destruct (list_max_some _ Hne) as [u Hu].
  destruct (list_min_some _ Hne) as [l Hl].
  assert (Hcs : cs <> []) by (destruct cs; cbn in *; [lia | discriminate]).
  exists (nth (length df - 1) cs 0), u, l.
  rewrite <- !prior_window_map. fold cs.
  split; [rewrite <- Hn; now apply iloc_last_nth|].
  split; [assumption|]. split; [assumption|].
  rewrite nth_marks;
    [| lia
     | unfold rolling_max; now rewrite length_shift1, length_rolling_agg
     | unfold rolling_min; now rewrite length_shift1, length_rolling_agg].
  unfold rolling_max, rolling_min. rewrite !nth_shifted_rolling by lia.
  unfold prior_window in Hu, Hl. rewrite Hn in Hu, Hl.
  now rewrite Hu, Hl.
Qed.

End LiveVersusBacktest.

(** On candles whose close lies between low and high, the live engine is
    the stricter of the two: whenever it decides Buy on a frame, the
    signal generator's signal on the same frame ends at 1, and whenever it
    decides Sell, that signal ends at 0. *)
Theorem live_decision_implies_backtest_signal
    (df : DataFrame) (lookback : Z) (ch : Donchian.Channels) :
  (2 <= lookback)%Z -> (lookback <= Z.of_nat (length df))%Z ->
  Forall well_formed_candle df ->
  Donchian.donchian_breakout df lookback = Some ch ->
  (snd (TradingBot.calculate_donchian_signal (Some df) lookback) = Some 1%Z ->
   iloc_last (Donchian.signal ch) = Some (Some 1)) /\
  (snd (TradingBot.calculate_donchian_signal (Some df) lookback) = Some 0%Z ->
   iloc_last (Donchian.signal ch) = Some (Some 0)).
Proof.
  intros Hlb Hlen Hwf Hch.
  destruct (live_decision_spec df lookback Hlb Hlen)
    as (c & uh & ll & Hc & Huh & Hll & Hlive).
  destruct (backtest_last_row df lookback ch Hlb Hlen Hch)
    as (c' & uc & lc & Hc' & Huc & Hlc & Hraw).
  rewrite Hc in Hc'. injection Hc' as <-.
  set (w := Z.to_nat (lookback - 1)) in *.
  assert (Hwin : Forall well_formed_candle (prior_window w df))
    by now apply Forall_prior_window.
  assert (Hu : uc <= uh).
  { eapply list_max_mono; [|exact Huc|exact Huh].
    apply Forall2_map_le. revert Hwin. apply Forall_impl. now intros b [_ H]. }
  assert (Hl : ll <= lc).
  { eapply list_min_mono; [|exact Hll|exact Hlc].
    apply Forall2_map_le. revert Hwin. apply Forall_impl. now intros b [H _]. }
  pose proof (list_min_le_max _ _ _ Hlc Huc) as Hlu.
  assert (Hn : (0 < length df)%nat) by lia.
  assert (Hsig : nth (length df - 1) (Donchian.signal ch) NaN =
                 match Donchian.mark c (Some uc) (Some lc) with
                 | Some v => Some v
                 | None => match (length df - 1)%nat with
                           | O => Some 0
                           | S j => nth j (Donchian.signal ch) NaN
                           end
                 end)
    by (rewrite <- Hraw; apply (signal_scan df lookback ch Hch); lia).
  assert (Hlen_sig : length (Donchian.signal ch) = length df).
  { revert Hch. unfold Donchian.donchian_breakout.
    destruct (lookback - 1 <? 0)%Z; [discriminate|]. intros [= <-].
    cbn [Donchian.signal]. unfold ffill.
    rewrite length_fillna0, length_fix_first, length_ffill_from.
    unfold rolling_max, rolling_min. rewrite length_marks;
      rewrite ?length_shift1, ?length_rolling_agg, ?length_map; reflexivity. }
  assert (Hne : Donchian.signal ch <> [])
    by (destruct (Donchian.signal ch); cbn in *; [lia | discriminate]).
  rewrite (iloc_last_nth _ NaN Hne), Hlen_sig, Hsig, Hlive. cbn [snd].
  unfold live_decision. split.
  - destruct (Qltb uh c) eqn:E; [|destruct (Qltb c ll); discriminate].
    intros _. apply Qltb_lt in E.
    assert (Hm : Donchian.mark c (Some uc) (Some lc) = Some 1).
    { apply mark_is_one; [assumption|]. eapply Qle_lt_trans; eassumption. }
    now rewrite Hm.
  - destruct (Qltb uh c) eqn:E; [discriminate|].
    destruct (Qltb c ll) eqn:E'; [|discriminate].
    intros _. apply Qltb_lt in E'.
    assert (Hm : Donchian.mark c (Some uc) (Some lc) = Some 0).
    { apply mark_is_zero. eapply Qlt_le_trans; eassumption. }
    now rewrite Hm.
Qed.

Lemma live_decision_implies_backtest_signal_witness :
  (snd (TradingBot.calculate_donchian_signal (Some Samples.df_three) 3) = Some 1%Z ->
   iloc_last [Some 0; Some 0; Some 1] = Some (Some 1)) /\
  (snd (TradingBot.calculate_donchian_signal (Some Samples.df_three) 3) = Some 0%Z ->
   iloc_last [Some 0; Some 0; Some 1] = Some (Some 0)).
Proof.
  apply (live_decision_implies_backtest_signal Samples.df_three 3
           (Donchian.mkChannels
              [NaN; NaN; Some 110] [NaN; NaN; Some 100]
              [NaN; NaN; Some 1] [Some 0; Some 0; Some 1])).
  - lia.
  - cbn; lia.
  - repeat constructor; cbn; apply Qle_refl.
  - reflexivity.
Defined.

(** ** Counting trades *)

Section TradeCount.

Import Donchian.

Lemma last_cons_default {A} (x : A) l d : last (x :: l) d = last l x.
Proof.
  revert x d; induction l as [|y l IH]; intros x d; [reflexivity|].
  change (last (x :: y :: l) d) with (last (y :: l) d).
  rewrite (IH y d). symmetry. apply (IH y x).
Qed.

Lemma entry_transitions_snoc l : forall l0 s,
  entry_transitions_from l0 (l ++ [s]) =
  (entry_transitions_from l0 l
   + (if is_one s && negb (is_one (last l l0)) then 1 else 0))%nat.
Proof.
  induction l as [|x l IH]; intros l0 s.
  - cbn. lia.
  - cbn [app entry_transitions_from]. rewrite IH, last_cons_default. lia.
Qed.

Lemma firstn_S_snoc {A} (l : list A) k x :
  nth_error l k = Some x -> firstn (S k) l = firstn k l ++ [x].
Proof.
  revert k; induction l as [|y l IH]; intros [|k] H; cbn in *; try discriminate.
  - now injection H as ->.
  - f_equal. now apply IH.
Qed.

Lemma last_snoc {A} (l : list A) x d : last (l ++ [x]) d = x.
Proof. apply last_last. Qed.

Lemma pyget_map {A B} (f : A -> B) (l : list A) k :
  pyget (map f l) k = option_map f (pyget l k).
Proof.
  unfold pyget. rewrite length_map.
  destruct (k <? 0)%Z; [destruct (_ <? 0)%Z; [reflexivity|]|];
    apply nth_error_map.
Qed.

Lemma pyget_In {A} (l : list A) k x : pyget l k = Some x -> In x l.
Proof.
  unfold pyget. destruct (k <? 0)%Z; [destruct (_ <? 0)%Z; [discriminate|]|];
    apply nth_error_In.
Qed.

Variables (data : DataFrame) (sig : list float).

Let idx := map timestamp data.
Let close_arr := map close data.

Lemma close_at_priced ot bar' :
  opened_at data ot -> In bar' data ->
  priced_at data (close_at ot (timestamp bar') (close bar')).
Proof.
  intros (bar & Hin & Ht & Hp & _) Hin'. exists bar, bar'. cbn.
  repeat split; auto.
Qed.

(** One iteration: it succeeds on a row of the frame, adds one trade
    (closed or open) per entry transition, and prices everything at rows
    of the frame. *)
Lemma loop_body_counts st k cur :
  nth_error sig k = Some cur -> (k < length data)%nat ->
  Forall (priced_at data) (long_trades st) ->
  (forall ot, open_trade st = Some ot -> opened_at data ot) ->
  exists st',
    loop_body idx close_arr sig st k = Some st' /\
    last_sig st' = cur /\
    (length (long_trades st') + open_count st' =
     length (long_trades st) + open_count st
     + (if is_one cur && negb (is_one (last_sig st)) then 1 else 0))%nat /\
    Forall (priced_at data) (long_trades st') /\
    (forall ot, open_trade st' = Some ot -> opened_at data ot).
Proof.
  intros Hcur Hk Hp Ho. unfold loop_body, idx, close_arr.
  rewrite !pyget_map, pyget_nat, Hcur. cbn [bind].
  destruct (pyget_some data (Z.of_nat k)) as [bar Hbar]; [lia|].
  destruct (pyget_some data (Z.of_nat k - 1)) as [prev Hprev]; [lia|].
  rewrite Hbar, Hprev. cbn [option_map bind].
  pose proof (pyget_In _ _ _ Hbar) as Hin.
  pose proof (pyget_In _ _ _ Hprev) as Hin'.
  unfold open_count.
  assert (Hnew : opened_at data (mkTrade (timestamp bar) (close bar) (-1) NaN))
    by (exists bar; cbn; repeat split; auto).
  destruct (is_one cur) eqn:Hone; cbn [andb].
  - rewrite (is_one_not_zero _ Hone).
    destruct (is_one (last_sig st)) eqn:Hl1; cbn [negb bind andb].
    + eexists; split; [reflexivity|].
      cbn [last_sig long_trades open_trade]. repeat split; auto; lia.
    + destruct (open_trade st) as [ot|] eqn:Hot; cbn [bind andb];
        (eexists; split; [reflexivity|]);
        cbn [last_sig long_trades open_trade]; rewrite ?length_app;
        cbn [length]; (split; [reflexivity|]); (split; [lia|]); split.
      * apply Forall_app; split; [assumption|]. constructor; [|constructor].
        apply close_at_priced; auto.
      * now intros ot' [= <-].
      * assumption.
      * now intros ot' [= <-].
  - cbn [bind].
    destruct (is_zero cur && is_one (last_sig st)) eqn:Hexit.
    + destruct (open_trade st) as [ot|] eqn:Hot; cbn [bind];
        (eexists; split; [reflexivity|]);
        cbn [last_sig long_trades open_trade]; rewrite ?length_app, ?Hot;
        cbn [length]; (split; [reflexivity|]); (split; [lia|]); split.
      * apply Forall_app; split; [assumption|]. constructor; [|constructor].
        apply close_at_priced; auto.
      * discriminate.
      * assumption.
      * discriminate.
    + eexists; split; [reflexivity|].
      cbn [last_sig long_trades open_trade]. repeat split; auto; lia.
Qed.

Lemma loop_counts k :
  (k <= length data)%nat -> (length data <= length sig)%nat ->
  exists st,
    for_range (loop_body idx close_arr sig) (seq 0 k)
      (mkLoopState [] (Some 0) None) = Some st /\
    last_sig st = last (firstn k sig) (Some 0) /\
    (length (long_trades st) + open_count st)%nat =
      entry_transitions (firstn k sig) /\
    Forall (priced_at data) (long_trades st) /\
    (forall ot, open_trade st = Some ot -> opened_at data ot).
Proof.
  intros Hk Hsig. induction k as [|k IH].
  - eexists; split; [reflexivity|]. cbn. repeat split; auto. discriminate.
  - destruct IH as (st & Hrun & Hlast & Hcount & Hp & Ho); [lia|].
    destruct (nth_error sig k) as [cur|] eqn:Hcur;
      [|apply nth_error_None in Hcur; lia].
    destruct (loop_body_counts st k cur Hcur ltac:(lia) Hp Ho)
      as (st' & Hstep & Hlast' & Hcount' & Hp' & Ho').
    exists st'. rewrite seq_S, for_range_app, Hrun. cbn [bind for_range Nat.add].
    rewrite Hstep. cbn [bind]. split; [reflexivity|].
    rewrite (firstn_S_snoc _ _ _ Hcur).
    unfold entry_transitions in *. rewrite entry_transitions_snoc, last_snoc.
    rewrite <- Hlast, <- Hcount. auto.
Qed.

End TradeCount.

(** The extraction returns one trade per entry transition of the signal
    over the frame's rows, and every returned row is priced at rows of the
    frame: entry and exit are the timestamp and close of a candle, so the
    placeholders -1 and NaN of an open trade never reach the table. *)
Theorem one_trade_per_entry_transition (data : DataFrame) (sig : list float) :
  (length data <= length sig)%nat ->
  exists r, Donchian.get_trades_from_signal data sig = Some r /\
    length (Donchian.long_trades_df r) =
      entry_transitions (firstn (length data) sig) /\
    Forall (priced_at data) (Donchian.long_trades_df r).
Proof.
  intros Hsig.
  destruct (loop_counts data sig (length data) (le_n _) Hsig)
    as (st & Hrun & _ & Hcount & Hp & Ho).
  unfold Donchian.get_trades_from_signal. rewrite Hrun. cbn [bind].
  unfold Donchian.close_dangling, open_count in *.
  destruct (Donchian.open_trade st) as [ot|] eqn:Hot.
  - destruct (Ho ot eq_refl) as (bar & Hin & Ht & Hpr & Hexit).
    destruct (Z.eqb_spec (Donchian.exit_time ot) (-1)).
    + rewrite !pyget_map.
      destruct (pyget_some data (-1)) as [lastbar Hlast].
      { destruct data; [contradiction | cbn [length]; lia]. }
      rewrite Hlast. cbn [option_map bind].
      eexists; split; [reflexivity|]. cbn [Donchian.long_trades_df]. split.
      * rewrite length_app. cbn. lia.
      * apply Forall_app; split; [assumption|]. constructor; [|constructor].
        exists bar, lastbar. cbn. pose proof (pyget_In _ _ _ Hlast).
        repeat split; auto.
    + lia.
  - eexists; split; [reflexivity|]. cbn [Donchian.long_trades_df]. split.
    + lia.
    + assumption.
Qed.

Lemma one_trade_per_entry_transition_witness :
  exists r, Donchian.get_trades_from_signal Samples.df_exit Samples.sig_reentry = Some r /\
    length (Donchian.long_trades_df r) =
      entry_transitions (firstn (length Samples.df_exit) Samples.sig_reentry) /\
    Forall (priced_at Samples.df_exit) (Donchian.long_trades_df r).
Proof. apply one_trade_per_entry_transition. cbn; lia. Defined.

(** ** Signals of zeros and ones, and signals that are too short *)

Section BinarySignals.

Import Donchian.

Lemma binary_is_one_or_zero v :
  binary v -> (is_one v = true /\ is_zero v = false) \/
              (is_one v = false /\ is_zero v = true).
Proof. intros [-> | ->]; cbn; auto. Qed.

(** On a 0/1 row the loop keeps "a trade is open" in step with "the last
    signal was 1". *)
Lemma loop_body_long_iff_open idx close_arr sig st i cur st' :
  pyget sig (Z.of_nat i) = Some cur -> binary cur ->
  loop_body idx close_arr sig st i = Some st' ->
  is_some (open_trade st) = is_one (last_sig st) ->
  is_some (open_trade st') = is_one (last_sig st').
Proof.
  intros Hcur Hbin. unfold loop_body. rewrite Hcur. cbn [bind].
  destruct (binary_is_one_or_zero _ Hbin) as [[H1 H0] | [H1 H0]];
    rewrite H1, H0; cbn [andb].
  - destruct (is_one (last_sig st)) eqn:Hl; cbn [negb bind].
    + intros [= <-] Hj. cbn. congruence.
    + destruct (open_trade st) as [ot|]; cbn [bind]; intros Hrun Hj;
        [discriminate Hj|].
      destruct (pyget idx (Z.of_nat i)); [|discriminate].
      destruct (pyget close_arr (Z.of_nat i)); [|discriminate].
      cbn in Hrun. injection Hrun as <-. cbn. congruence.
  - cbn [bind]. destruct (is_one (last_sig st)) eqn:Hl.
    + destruct (open_trade st) as [ot|]; cbn [bind]; intros Hrun Hj;
        [|discriminate Hj].
      destruct (pyget idx (Z.of_nat i)); [|discriminate].
      destruct (pyget close_arr (Z.of_nat i)); [|discriminate].
      cbn in Hrun. injection Hrun as <-. cbn. congruence.
    + intros [= <-] Hj. cbn. rewrite Hj. congruence.
Qed.

Lemma no_entry_while_open_from idx close_arr sig range :
  Forall binary sig ->
  forall st,
    is_some (open_trade st) = is_one (last_sig st) ->
    entry_while_open_from idx close_arr sig range st = false.
Proof.
  intros Hsig. induction range as [|i range IH]; intros st Hj; [reflexivity|].
  cbn [entry_while_open_from].
  destruct (pyget sig (Z.of_nat i)) as [cur|] eqn:Hcur; [|reflexivity].
  destruct (loop_body idx close_arr sig st i) as [st'|] eqn:Hrun; [|reflexivity].
  assert (Hbin : binary cur).
  { rewrite Forall_forall in Hsig. apply Hsig. eapply pyget_In; eassumption. }
  rewrite (IH st') by (eapply loop_body_long_iff_open; eassumption).
  rewrite Hj, orb_false_r.
  destruct (is_one cur), (is_one (last_sig st)); reflexivity.
Qed.

Lemma signal_column_binary (df : DataFrame) lookback ch :
  donchian_breakout df lookback = Some ch -> Forall binary (signal ch).
Proof.
  unfold donchian_breakout. destruct (lookback - 1 <? 0)%Z; [discriminate|].
  intros [= <-]. cbn [signal].
  apply fillna0_values, fix_first_values, ffill_from_values;
    [now left | apply marks_values].
Qed.

End BinarySignals.

(** On a signal of zeros and ones the extraction never meets an entry
    while a trade is open, so the branch that closes a trade at the
    previous row is never taken; in particular it is never taken on the
    signal column written by [donchian_breakout]. *)
Theorem binary_signal_never_reenters (data : DataFrame) (sig : list float) :
  (Forall binary sig -> Donchian.entry_while_open data sig = false) /\
  (forall lookback ch,
     Donchian.donchian_breakout data lookback = Some ch ->
     Donchian.entry_while_open data (Donchian.signal ch) = false).
Proof.
  assert (H : forall s, Forall binary s -> Donchian.entry_while_open data s = false).
  { intros s Hs. unfold Donchian.entry_while_open.
    now apply no_entry_while_open_from. }
  split; [apply H|].
  intros lookback ch Hch. eapply H, signal_column_binary, Hch.
Qed.

Lemma binary_signal_never_reenters_witness :
  Donchian.entry_while_open Samples.df_exit
    [Some 0; Some 0; Some 1; Some 0; Some 0] = false.
Proof.
  apply (binary_signal_never_reenters Samples.df_exit
           [Some 0; Some 0; Some 1; Some 0; Some 0]).
  repeat constructor; (now left) || (now right).
Defined.

(** A signal array shorter than the frame makes the extraction fail with
    the IndexError of [signal[i]]: no trade table is returned, not even
    for the rows the signal covers. *)
Theorem short_signal_raises (data : DataFrame) (sig : list float) :
  (length sig < length data)%nat ->
  Donchian.get_trades_from_signal data sig = None.
Proof.
  intros Hlen. unfold Donchian.get_trades_from_signal.
  replace (length data) with (length sig + (length data - length sig))%nat by lia.
  rewrite seq_app, for_range_app. cbn [Nat.add].
  destruct (Donchian.for_range _ (seq 0 (length sig)) _) as [st|]; [|reflexivity].
  cbn [bind].
  destruct (length data - length sig)%nat as [|m] eqn:E; [lia|].
  cbn [seq Donchian.for_range]. unfold Donchian.loop_body at 1.
  rewrite pyget_nat.
  assert (Hnone : nth_error sig (length sig) = None)
    by (apply nth_error_None; lia).
  rewrite Hnone. reflexivity.
Qed.

Lemma short_signal_raises_witness :
  Donchian.get_trades_from_signal Samples.df_exit [Some 0; Some 1] = None.
Proof. apply short_signal_raises. cbn; lia. Defined.

(** ** One cycle of the bot *)

Section CycleFacts.

Import TradingBot.

Lemma signal_is_true s v : signal_is s v = true <-> s = Some v.
Proof.
  destruct s as [x|]; cbn; [|split; discriminate].
  rewrite Z.eqb_eq. split; congruence.
Qed.

Lemma submitted_app s l l' : submitted s (l ++ l') = submitted s l ++ submitted s l'.
Proof. apply flat_map_app. Qed.

Lemma submitted_signal_log s log : submitted s (map SignalLog log) = [].
Proof. induction log; cbn; auto. Qed.

Lemma In_submitted s p q tr :
  In (SubmitLimitOrder s p q) tr <-> In (p, q) (submitted s tr).
Proof.
  unfold submitted. rewrite in_flat_map. split.
  - intros H. exists (SubmitLimitOrder s p q). split; [assumption|].
    destruct s; cbn; auto.
  - intros (e & He & Hin). destruct e; cbn in Hin; try contradiction.
    destruct s, s0; cbn in Hin; try contradiction;
      destruct Hin as [[= <- <-]|[]]; assumption.
Qed.

Lemma submitted_outcome s s' r : submitted s [order_outcome s' r] = [].
Proof. destruct r; reflexivity. Qed.

Lemma submitted_outcome_nil s s' r l :
  (match order_outcome s' r with
   | SubmitLimitOrder s0 p q =>
       match s, s0 with
       | Buy, Buy | Sell, Sell => [(p, q)]
       | _, _ => []
       end
   | _ => []
   end ++ l) = l.
Proof. destruct r; reflexivity. Qed.

(** The shapes a trade-logic trace can take. *)
Lemma execute_trade_logic_cases ex latest_signal krw coin :
  let tr := execute_trade_logic ex latest_signal krw coin in
  (submitted Buy tr = [] /\ submitted Sell tr = []) \/
  (exists p q r pre,
     tr = pre ++ [OrderAttempt Buy p q; SubmitLimitOrder Buy p q; order_outcome Buy r] /\
     submitted Buy tr = [(p, q)] /\ submitted Sell tr = [] /\
     latest_signal = Some 1%Z /\ MIN_KRW_ORDER <= krw) \/
  (exists p r pre,
     tr = pre ++ [OrderAttempt Sell p coin; SubmitLimitOrder Sell p coin;
                  order_outcome Sell r] /\
     submitted Buy tr = [] /\ submitted Sell tr = [(p, coin)] /\
     latest_signal = Some 0%Z /\ MIN_BTC_HOLDING < coin).
Proof.
  cbv zeta. unfold execute_trade_logic.
  destruct (signal_is latest_signal 1) eqn:Hbuy.
  - apply signal_is_true in Hbuy.
    destruct (Qltb krw MIN_KRW_ORDER) eqn:Hkrw; [left; split; reflexivity|].
    apply Qltb_ge in Hkrw.
    destruct (get_current_price ex) as [cp|]; [|left; split; reflexivity].
    destruct (round_half_even (cp * (998 # 1000)) =? 0)%Z;
      [left; split; reflexivity|].
    right; left.
    exists (round_half_even (cp * (998 # 1000))),
           (round8 (krw * (5 # 10) / inject_Z (round_half_even (cp * (998 # 1000))))),
           (buy_limit_order ex (round_half_even (cp * (998 # 1000)))
              (round8 (krw * (5 # 10) / inject_Z (round_half_even (cp * (998 # 1000)))))),
           [BuyAmount (krw * (5 # 10))].
    repeat split; auto;
      destruct (buy_limit_order ex _ _); reflexivity.
  - destruct (signal_is latest_signal 0) eqn:Hsell; cbn [andb];
      [|left; split; reflexivity].
    apply signal_is_true in Hsell.
    destruct (Qltb MIN_BTC_HOLDING coin) eqn:Hhold; [|left; split; reflexivity].
    apply Qltb_lt in Hhold.
    destruct (get_current_price ex) as [cp|]; [|left; split; reflexivity].
    destruct (Qle_bool MIN_KRW_ORDER (coin * cp)); [|left; split; reflexivity].
    right; right.
    exists (round_half_even (cp * (998 # 1000))),
           (sell_limit_order ex (round_half_even (cp * (998 # 1000))) coin),
           [].
    repeat split; auto;
      destruct (sell_limit_order ex _ _); reflexivity.
Qed.

(** A cycle's trace is a prefix without orders, followed by the trade
    logic when frame and balances were available. *)
Lemma check_and_trade_shape ex lookback :
  exists pre,
    (forall s, submitted s pre = []) /\
    (check_and_trade ex lookback = pre \/
     exists df krw coin,
       get_ohlcv ex (lookback + 5) = Some df /\ df <> [] /\
       get_balances ex = Some (krw, coin) /\
       check_and_trade ex lookback =
         pre ++ execute_trade_logic ex
                  (snd (calculate_donchian_signal (Some df) lookback)) krw coin).
Proof.
  unfold check_and_trade.
  destruct (get_ohlcv ex (lookback + 5)) as [[|c0 df]|];
    try (exists [FetchFailed]; split; [reflexivity | now left]).
  destruct (calculate_donchian_signal _ _) as [log latest_signal] eqn:Hsig.
  destruct (get_balances ex) as [[krw coin]|].
  - exists (map SignalLog log ++ [HoldingStatus (Qltb MIN_BTC_HOLDING coin)]).
    split.
    + intros s. now rewrite submitted_app, submitted_signal_log.
    + right. exists (c0 :: df), krw, coin. rewrite Hsig, <- app_assoc.
      repeat split; auto. discriminate.
  - exists (map SignalLog log ++ [BalanceUnavailable]). split; [|now left].
    intros s. now rewrite submitted_app, submitted_signal_log.
Qed.

End CycleFacts.

(** A cycle submits at most one order, never one on each side; and a
    submitted order is the last thing the trade logic does but one: it is
    announced by its "New Order Attempt" record and followed by exactly one
    outcome record (placed or error), after which the trace ends. *)
Theorem one_order_per_cycle (ex : TradingBot.Exchange) (lookback : Z) :
  let tr := TradingBot.check_and_trade ex lookback in
  (length (TradingBot.submitted TradingBot.Buy tr)
   + length (TradingBot.submitted TradingBot.Sell tr) <= 1)%nat /\
  (forall s p q,
     In (TradingBot.SubmitLimitOrder s p q) tr ->
     exists pre r,
       tr = pre ++ [TradingBot.OrderAttempt s p q;
                    TradingBot.SubmitLimitOrder s p q;
                    TradingBot.order_outcome s r]).
Proof.
  cbv zeta.
  destruct (check_and_trade_shape ex lookback)
    as (pre & Hpre & [-> | (df & krw & coin & _ & _ & _ & ->)]).
  - rewrite !Hpre. split; [cbn; lia|].
    intros s p q Hin. apply In_submitted in Hin. rewrite Hpre in Hin. contradiction.
  - rewrite !submitted_app, !Hpre. cbn [app].
    destruct (execute_trade_logic_cases ex
                (snd (TradingBot.calculate_donchian_signal (Some df) lookback))
                krw coin)
      as [[Hb Hs] | [(p & q & r & pre' & Htr & Hb & Hs & _)
                    | (p & r & pre' & Htr & Hb & Hs & _)]];
      rewrite Hb, Hs; (split; [cbn; lia|]); intros s p' q' Hin;
      apply In_submitted in Hin; rewrite submitted_app, Hpre in Hin;
      cbn [app] in Hin; destruct s;
      rewrite ?Hb, ?Hs in Hin; try contradiction;
      destruct Hin as [[= <- <-]|[]];
      exists (pre ++ pre'), r; rewrite Htr, app_assoc; reflexivity.
Qed.

(** No order without a signal: a buy order is submitted only after a
    non-empty frame was fetched, the live engine decided Buy on it, the
    balances were read and at least MIN_KRW_ORDER KRW is available; a sell
    order only after the engine decided Sell and the coin balance exceeds
    MIN_BTC_HOLDING.  In particular a failed fetch, fewer than [lookback]
    candles, or unavailable balances leave the account untouched. *)
Theorem orders_need_a_signal (ex : TradingBot.Exchange) (lookback : Z) :
  let tr := TradingBot.check_and_trade ex lookback in
  (TradingBot.submitted TradingBot.Buy tr <> [] ->
   exists df krw coin,
     TradingBot.get_ohlcv ex (lookback + 5) = Some df /\ df <> [] /\
     snd (TradingBot.calculate_donchian_signal (Some df) lookback) = Some 1%Z /\
     TradingBot.get_balances ex = Some (krw, coin) /\
     TradingBot.MIN_KRW_ORDER <= krw) /\
  (TradingBot.submitted TradingBot.Sell tr <> [] ->
   exists df krw coin,
     TradingBot.get_ohlcv ex (lookback + 5) = Some df /\ df <> [] /\
     snd (TradingBot.calculate_donchian_signal (Some df) lookback) = Some 0%Z /\
     TradingBot.get_balances ex = Some (krw, coin) /\
     TradingBot.MIN_BTC_HOLDING < coin).
Proof.
  cbv zeta.
  destruct (check_and_trade_shape ex lookback)
    as (pre & Hpre & [-> | (df & krw & coin & Hdf & Hne & Hbal & ->)]).
  - rewrite !Hpre. split; intros H; now contradiction H.
  - rewrite !submitted_app, !Hpre. cbn [app].
    destruct (execute_trade_logic_cases ex
                (snd (TradingBot.calculate_donchian_signal (Some df) lookback))
                krw coin)
      as [[Hb Hs] | [(p & q & r & pre' & _ & Hb & Hs & Hl & Hk)
                    | (p & r & pre' & _ & Hb & Hs & Hl & Hk)]];
      rewrite Hb, Hs; split; intros H; try (now contradiction H);
      exists df, krw, coin; auto.
Qed.

(** ** The moving-average filter *)

Section FilterFacts.

Lemma mark_filtered c u l s :
  filtered_mark (DonchianFilter.mark c u l s) (Donchian.mark c u l).
Proof.
  unfold filtered_mark, DonchianFilter.mark, Donchian.mark.
  destruct (lt_float c l), (gt_float c u), (gt_float c s); cbn; auto.
Qed.

Lemma marks_filtered cs : forall us ls ss,
  length us = length cs -> length ls = length cs -> length ss = length cs ->
  Forall2 filtered_mark (DonchianFilter.marks cs us ls ss) (Donchian.marks cs us ls).
Proof.
  induction cs as [|c cs IH]; intros [|u us] [|l ls] [|s ss] Hu Hl Hs;
    cbn in *; try discriminate; constructor.
  - apply mark_filtered.
  - apply IH; lia.
Qed.

Lemma filtered_marks_values cs : forall us ls ss,
  Forall (fun v => v = NaN \/ binary v) (DonchianFilter.marks cs us ls ss).
Proof.
  induction cs as [|c cs IH]; intros [|u us] [|l ls] [|s ss]; cbn;
    constructor; auto.
  unfold DonchianFilter.mark, binary.
  destruct (lt_float c l), (gt_float c u && gt_float c s); auto.
Qed.

(** Forward fill keeps the filtered column at or below the unfiltered
    one. *)
Lemma ffill_filtered lf lu :
  Forall2 filtered_mark lf lu ->
  forall a b, (a = Some 1 -> b = Some 1) ->
  forall i, nth i (ffill_from a lf) NaN = Some 1 ->
            nth i (ffill_from b lu) NaN = Some 1.
Proof.
  induction 1 as [|f u lf lu Hfu Hrest IH]; intros a b Hab i; [now destruct i|].
  destruct Hfu as [-> | [-> ->]].
  - destruct u as [v|]; cbn [ffill_from]; destruct i as [|i]; cbn [nth]; auto.
    + now apply IH.
    + now apply IH.
  - cbn [ffill_from]. destruct i as [|i]; cbn [nth]; [reflexivity|].
    apply IH. reflexivity.
Qed.

End FilterFacts.

(** The moving-average filter only removes long bars.  Whatever the
    moving-average column (one cell per row), the filtered signal has one
    0/1 value per row, and every row where it is 1 is a row where the
    unfiltered signal of [donchian_breakout] with the same lookback is 1;
    exit marks are the same in both. *)
Theorem ma_filter_only_removes_long_bars
    (ta_sma : list Q -> Z -> list float)
    (df : DataFrame) (donchian_lookback ma_lookback : Z)
    (ch : Donchian.Channels) (fch : DonchianFilter.FilteredChannels) :
  length (ta_sma (map close df) ma_lookback) = length df ->
  Donchian.donchian_breakout df donchian_lookback = Some ch ->
  DonchianFilter.donchian_breakout_with_ma_filter ta_sma df donchian_lookback ma_lookback
    = Some fch ->
  length (DonchianFilter.signal fch) = length df /\
  Forall binary (DonchianFilter.signal fch) /\
  (forall i, nth i (DonchianFilter.signal fch) NaN = Some 1 ->
             nth i (Donchian.signal ch) NaN = Some 1) /\
  (forall i, nth i (DonchianFilter.raw_signal fch) NaN = Some 0 <->
             nth i (Donchian.raw_signal ch) NaN = Some 0).
Proof.
  intros Hsma. unfold Donchian.donchian_breakout,
    DonchianFilter.donchian_breakout_with_ma_filter.
  destruct (donchian_lookback - 1 <? 0)%Z; [discriminate|].
  intros [= <-] [= <-].
  cbn [DonchianFilter.signal DonchianFilter.raw_signal Donchian.signal
       Donchian.raw_signal].
  set (w := Z.to_nat (donchian_lookback - 1)).
  set (cs := map close df) in *.
  set (up := shift1 (rolling_max w cs)).
  set (lo := shift1 (rolling_min w cs)).
  set (ma := ta_sma cs ma_lookback) in *.
  assert (Hn : length cs = length df) by apply length_map.
  assert (Hup : length up = length cs)
    by (unfold up, rolling_max; now rewrite length_shift1, length_rolling_agg).
  assert (Hlo : length lo = length cs)
    by (unfold lo, rolling_min; now rewrite length_shift1, length_rolling_agg).
  assert (Hma : length ma = length cs) by congruence.
  pose proof (marks_filtered cs up lo ma Hup Hlo Hma) as Hrel.
  rewrite !fillna0_fix_first. unfold ffill. rewrite !fillna0_ffill_from.
  repeat split.
  - rewrite length_ffill_from, (Forall2_length Hrel).
    now rewrite length_marks.
  - rewrite <- (fillna0_ffill_from NaN).
    apply fillna0_values, ffill_from_values;
      [now left | apply filtered_marks_values].
  - intros i. apply (ffill_filtered _ _ Hrel). auto.
  - revert i. induction Hrel as [|f u lf lu [-> | [-> ->]] _ IH]; intros [|i];
      cbn [nth]; auto; try reflexivity; discriminate.
  - revert i. induction Hrel as [|f u lf lu [-> | [-> ->]] _ IH]; intros [|i];
      cbn [nth]; auto; try reflexivity; discriminate.
Qed.

Lemma ma_filter_only_removes_long_bars_witness :
  length (DonchianFilter.signal MoreSamples.fch_exit) = length Samples.df_exit /\
  Forall binary (DonchianFilter.signal MoreSamples.fch_exit) /\
  (forall i, nth i (DonchianFilter.signal MoreSamples.fch_exit) NaN = Some 1 ->
             nth i (Donchian.signal MoreSamples.ch_exit) NaN = Some 1) /\
  (forall i, nth i (DonchianFilter.raw_signal MoreSamples.fch_exit) NaN = Some 0 <->
             nth i (Donchian.raw_signal MoreSamples.ch_exit) NaN = Some 0).
Proof.
  apply (ma_filter_only_removes_long_bars MoreSamples.sma_of_one
           Samples.df_exit 3 1); reflexivity.
Defined.

(** ** Maximum drawdown *)

Section DrawdownFacts.

Import Drawdown.

Lemma div_cell_pos n d : 0 < d -> div_cell n d = CFin (n / d).
Proof.
  intros Hd. unfold div_cell. destruct (Qeq_bool d 0) eqn:E; [|reflexivity].
  apply Qeq_bool_iff in E. rewrite E in Hd. now apply Qlt_irrefl in Hd.
Qed.

Lemma series_min_fin (P : Q -> Prop) l :
  Forall (fun c => exists q, c = CFin q /\ P q) l ->
  forall acc, (acc = CNaN /\ l <> [] \/ exists q, acc = CFin q /\ P q) ->
  exists q, fold_left min2 l acc = CFin q /\ P q.
Proof.
  induction 1 as [|c l (q & -> & Hq) Hl IH]; intros acc Hacc.
  - destruct Hacc as [[_ H]|H]; [congruence | exact H].
  - cbn [fold_left]. apply IH. right.
    destruct Hacc as [[-> _]|(a & -> & Ha)]; cbn; [eauto|].
    destruct (Qle_bool a q); eauto.
Qed.

(** The drawdown cells over positive cumulative values lie in (-1, 0]. *)
Lemma drawdown_cells_bounded l : forall acc m,
  0 < acc -> Forall (fun x => 0 < x) l ->
  Forall (fun c => exists q, c = CFin q /\ -1 < q /\ q <= 0)
    (drawdown (cumprod_from acc l) (expanding_max_from m (cumprod_from acc l))).
Proof.
  induction l as [|x t IH]; intros acc m Hacc Hl; [constructor|].
  inversion Hl as [|? ? Hx Ht]; subst.
  assert (Ha : 0 < acc * x) by now apply Qmult_lt_0_compat.
  cbn [cumprod_from expanding_max_from drawdown combine map fst snd].
  constructor; [|apply IH; assumption].
  pose proof (Q.le_max_r m (acc * x)) as Hge.
  set (p := Qmax m (acc * x)) in *.
  assert (Hp : 0 < p) by (eapply Qlt_le_trans; eassumption).
  rewrite div_cell_pos by assumption. eexists; split; [reflexivity|]. split.
  - apply Qlt_shift_div_l; [assumption|].
    apply Qplus_lt_l with (z := p). ring_simplify. assumption.
  - apply Qle_shift_div_r; [assumption|].
    apply Qplus_le_l with (z := p). ring_simplify. assumption.
Qed.

(** While the cumulative values do not fall, every drawdown cell is 0. *)
Lemma drawdown_cells_zero l : forall acc m,
  0 < acc -> m <= acc -> Forall (fun x => 1 <= x) l ->
  Forall (fun c => exists q, c = CFin q /\ q == 0)
    (drawdown (cumprod_from acc l) (expanding_max_from m (cumprod_from acc l))).
Proof.
  induction l as [|x t IH]; intros acc m Hacc Hm Hl; [constructor|].
  inversion Hl as [|? ? Hx Ht]; subst.
  assert (Hx0 : 0 < x) by (eapply Qlt_le_trans; [|exact Hx]; reflexivity).
  assert (Ha : 0 < acc * x) by now apply Qmult_lt_0_compat.
  assert (Hup : acc <= acc * x).
  { rewrite <- (Qmult_1_r acc) at 1.
    apply Qmult_le_l; assumption. }
  assert (Hmax : Qmax m (acc * x) == acc * x)
    by (apply Q.max_r; eapply Qle_trans; eassumption).
  cbn [cumprod_from expanding_max_from drawdown combine map fst snd].
  constructor.
  - assert (Hp : 0 < Qmax m (acc * x)) by now rewrite Hmax.
    rewrite div_cell_pos by assumption. eexists; split; [reflexivity|].
    rewrite Hmax. unfold Qminus, Qdiv. rewrite Qplus_opp_r. apply Qmult_0_l.
  - apply IH; [assumption | | assumption]. rewrite Hmax. apply Qle_refl.
Qed.

Lemma first_drawdown_cell x : 0 < x ->
  exists q, div_cell (x - x) x = CFin q /\ q == 0.
Proof.
  intros Hx. rewrite div_cell_pos by assumption. eexists; split; [reflexivity|].
  unfold Qminus, Qdiv. rewrite Qplus_opp_r. apply Qmult_0_l.
Qed.

End DrawdownFacts.



(** ** The parameter file *)

Section ParamsFacts.

Import Params.

Lemma valid_interval_nonempty x s : valid_interval x = Some s -> s <> ""%string.
Proof.
  destruct x; cbn; try discriminate.
  destruct (String.eqb_spec s0 ""%string); [discriminate|]. now intros [= <-].
Qed.

Lemma valid_lookback_positive x n : valid_lookback x = Some n -> (0 < n)%Z.
Proof.
  destruct x as [|[|]|z| | | |]; cbn; try discriminate.
  - intros [= <-]. lia.
  - destruct (Z.leb_spec z 0); [discriminate|]. intros [= <-]. lia.
Qed.

End ParamsFacts.

(** Whatever the parameter file holds (missing, unreadable, not JSON, not
    an object, fields absent or of the wrong type), the loaded interval is
    a non-empty string and the loaded lookback a positive integer, provided
    the defaults are. *)
Theorem loaded_params_are_valid (file : Params.ParamsFile)
    (default_interval : String.string) (default_lookback : Z) :
  default_interval <> ""%string -> (0 < default_lookback)%Z ->
  Params.interval (Params.load_optimal_params file default_interval default_lookback)
    <> ""%string /\
  (0 < Params.donchian_lookback
         (Params.load_optimal_params file default_interval default_lookback))%Z.
Proof.
  intros Hi Hl. destruct file as [| | |[| | | | | |o]]; cbn; auto.
  destruct (Params.valid_interval _) as [s|] eqn:Es;
    destruct (Params.valid_lookback _) as [n|] eqn:En;
    destruct (Params.dict_get o "backtest_results"%string) as [| | | | | |[|kv rest]];
    cbn; split; eauto using valid_interval_nonempty, valid_lookback_positive.
Qed.

Lemma loaded_params_are_valid_witness :
  Params.interval
    (Params.load_optimal_params
       (Params.FileContent
          (Params.JObj [("interval"%string, Params.JStr ""%string);
                        ("donchian_lookback"%string, Params.JFloat 24)]))
       "minute240"%string 24) <> ""%string /\
  (0 < Params.donchian_lookback
         (Params.load_optimal_params
            (Params.FileContent
               (Params.JObj [("interval"%string, Params.JStr ""%string);
                             ("donchian_lookback"%string, Params.JFloat 24)]))
            "minute240"%string 24))%Z.
Proof. apply loaded_params_are_valid; [discriminate | lia]. Defined.

(** The two parameters are validated independently.  A non-empty string
    under "interval"%string is returned as the interval and a positive integer
    under "donchian_lookback"%string as the lookback, whatever the other field
    holds; and each returned parameter is either the default or the value
    found in the file (the boolean true, an int in Python, counting as the
    lookback 1). *)
Theorem params_fields_are_independent
    (o : list (String.string * Params.json))
    (default_interval : String.string) (default_lookback : Z) :
  let r := Params.load_optimal_params (Params.FileContent (Params.JObj o))
             default_interval default_lookback in
  (forall s, Params.dict_get o "interval"%string = Params.JStr s ->
             s <> ""%string -> Params.interval r = s) /\
  (forall n, Params.dict_get o "donchian_lookback"%string = Params.JInt n ->
             (0 < n)%Z -> Params.donchian_lookback r = n) /\
  (Params.interval r = default_interval \/
   Params.dict_get o "interval"%string = Params.JStr (Params.interval r)) /\
  (Params.donchian_lookback r = default_lookback \/
   Params.dict_get o "donchian_lookback"%string =
     Params.JInt (Params.donchian_lookback r) \/
   (Params.dict_get o "donchian_lookback"%string = Params.JBool true /\
    Params.donchian_lookback r = 1%Z)).
Proof.
  cbv zeta. unfold Params.load_optimal_params.
  set (bt := match Params.dict_get o "backtest_results"%string with
             | Params.JObj (kv :: rest) => _
             | _ => _
             end).
  destruct bt as [results log3].
  destruct (Params.dict_get o "interval"%string) as [|b1|z1|q1|s|l1|o1] eqn:Ei;
    destruct (Params.dict_get o "donchian_lookback"%string)
      as [|[|]|z|q2|s2|l2|o2] eqn:El;
    cbn [Params.valid_interval Params.valid_lookback];
    try destruct (String.eqb_spec s ""%string);
    try destruct (Z.leb_spec z 0);
    cbn [Params.interval Params.donchian_lookback];
    (split; [intros s' Hs Hne; try discriminate; try (injection Hs as <-); congruence|]);
    (split; [intros n' Hn Hpos; try discriminate; try (injection Hn as <-); (reflexivity || lia)|]);
    (split; [auto|]); auto.
Qed.

(** ** Open orders *)

Section OrderFacts.

Import OrderStatus.

Lemma scan_orders_sound orders :
  Forall (fun r => exists o v,
            In o orders /\ order_id r = uuid o /\
            side r = (if side_is_bid o then TradingBot.Buy else TradingBot.Sell) /\
            price o = Some (filled_price r) /\
            volume o = Some v /\
            remaining_volume o = Some (remaining_quantity r) /\
            0 < remaining_quantity r /\ remaining_quantity r < v /\
            filled_quantity r = v - remaining_quantity r)
         (fst (scan_orders orders)).
Proof.
  induction orders as [|o rest IH]; cbn [scan_orders]; [constructor|].
  destruct (price o) as [p|] eqn:Hp; [|constructor].
  destruct (volume o) as [v|] eqn:Hv; [|constructor].
  destruct (remaining_volume o) as [r|] eqn:Hr; [|constructor].
  destruct (scan_orders rest) as [rows failed]. cbn [fst] in *.
  apply Forall_app. split.
  - destruct (Qltb r v && Qltb 0 r) eqn:E; [|constructor].
    apply andb_true_iff in E. destruct E as [E1 E2].
    apply Qltb_lt in E1, E2.
    constructor; [|constructor]. exists o, v. cbn.
    repeat split; auto.
  - revert IH. apply Forall_impl.
    intros row (o' & v' & Hin & H). exists o', v'. split; [now right | exact H].
Qed.

Lemma scan_orders_well_formed orders :
  Forall well_formed orders ->
  snd (scan_orders orders) = false /\
  forall o v r,
    In o orders -> volume o = Some v -> remaining_volume o = Some r ->
    0 < r -> r < v ->
    exists row, In row (fst (scan_orders orders)) /\ order_id row = uuid o /\
                remaining_quantity row = r.
Proof.
  induction 1 as [|o rest (Hp & Hv & Hr) Hrest [IHf IHc]]; cbn [scan_orders].
  - split; [reflexivity | intros o v r []].
  - destruct (price o) as [p|]; [|congruence].
    destruct (volume o) as [v|] eqn:Ev; [|congruence].
    destruct (remaining_volume o) as [r|] eqn:Er; [|congruence].
    destruct (scan_orders rest) as [rows failed]. cbn [fst snd] in *.
    split; [assumption|].
    intros o' v' r' [<- | Hin] Hv' Hr' H0 Hlt.
    + rewrite Ev in Hv'. rewrite Er in Hr'.
      injection Hv' as <-. injection Hr' as <-.
      apply Qltb_lt in H0, Hlt. rewrite H0, Hlt. cbn [andb].
      eexists; split; [left; reflexivity|]. cbn. auto.
    + destruct (IHc o' v' r' Hin Hv' Hr' H0 Hlt) as (row & Hrow & Hid).
      exists row. split; [apply in_or_app; now right | exact Hid].
Qed.

Lemma scan_orders_abort pre bad post :
  Forall well_formed pre -> ~ well_formed bad ->
  scan_orders (pre ++ bad :: post) = (fst (scan_orders pre), true).
Proof.
  intros Hpre Hbad. induction Hpre as [|o rest (Hp & Hv & Hr) _ IH].
  - cbn. unfold well_formed in Hbad.
    destruct (price bad); [|reflexivity].
    destruct (volume bad); [|reflexivity].
    destruct (remaining_volume bad); [|reflexivity].
    exfalso. apply Hbad. repeat split; discriminate.
  - cbn [app scan_orders].
    destruct (price o) as [p|]; [|congruence].
    destruct (volume o) as [v|]; [|congruence].
    destruct (remaining_volume o) as [r|]; [|congruence].
    rewrite IH. destruct (scan_orders rest) as [rows failed]. reflexivity.
Qed.

End OrderFacts.

(** Every "Order Partially Filled" row [check_order_status] logs belongs
    to an open order whose remaining volume is strictly between 0 and its
    volume; the row carries that order's price and remaining volume, and a
    filled quantity that is positive, below the volume, and adds up with
    the remaining quantity to the volume. *)
Theorem partial_fill_rows_are_partial
    (open_orders : option (list OrderStatus.OpenOrder)) :
  Forall (fun r => exists o orders v,
            open_orders = Some orders /\ In o orders /\
            OrderStatus.order_id r = OrderStatus.uuid o /\
            OrderStatus.price o = Some (OrderStatus.filled_price r) /\
            OrderStatus.volume o = Some v /\
            OrderStatus.remaining_volume o = Some (OrderStatus.remaining_quantity r) /\
            0 < OrderStatus.remaining_quantity r /\
            OrderStatus.remaining_quantity r < v /\
            0 < OrderStatus.filled_quantity r /\
            OrderStatus.filled_quantity r < v /\
            OrderStatus.filled_quantity r + OrderStatus.remaining_quantity r == v)
         (fst (OrderStatus.check_order_status open_orders)).
Proof.
  destruct open_orders as [[|o0 rest]|]; cbn [OrderStatus.check_order_status fst];
    try constructor.
  generalize (scan_orders_sound (o0 :: rest)). apply Forall_impl.
  intros r (o & v & Hin & Hid & _ & Hp & Hv & Hr & H0 & Hlt & Hf).
  exists o, (o0 :: rest), v. rewrite Hf.
  repeat split; auto.
  - apply Qlt_minus_iff in Hlt. 
    setoid_replace (v - OrderStatus.remaining_quantity r)
      with (v + - OrderStatus.remaining_quantity r) by reflexivity.
    exact Hlt.
  - apply Qplus_lt_l with (z := OrderStatus.remaining_quantity r).
    setoid_replace (v - OrderStatus.remaining_quantity r + OrderStatus.remaining_quantity r)
      with (v + 0) by ring.
    apply Qplus_lt_r. exact H0.
  - ring.
Qed.

(** [check_order_status] examines the open orders in order inside one
    try block.  When every order has numeric price, volume and remaining
    volume, nothing fails and every partially filled order gets its row;
    an order with a missing or non-numeric field ends the scan with an
    error: the rows of the orders before it are kept and the orders after
    it are never examined. *)
Theorem order_scan_stops_at_malformed_order
    (pre post : list OrderStatus.OpenOrder) (bad : OrderStatus.OpenOrder) :
  Forall OrderStatus.well_formed pre ->
  (snd (OrderStatus.check_order_status (Some pre)) = false /\
   forall o v r,
     In o pre -> OrderStatus.volume o = Some v ->
     OrderStatus.remaining_volume o = Some r -> 0 < r -> r < v ->
     exists row, In row (fst (OrderStatus.check_order_status (Some pre))) /\
                 OrderStatus.order_id row = OrderStatus.uuid o /\
                 OrderStatus.remaining_quantity row = r) /\
  (~ OrderStatus.well_formed bad ->
   OrderStatus.check_order_status (Some (pre ++ bad :: post)) =
     (fst (OrderStatus.check_order_status (Some pre)), true)).
Proof.
  intros Hpre.
  assert (Hsame : OrderStatus.check_order_status (Some pre) = OrderStatus.scan_orders pre)
    by (destruct pre; reflexivity).
  rewrite Hsame. split; [now apply scan_orders_well_formed|].
  intros Hbad.
  assert (H : OrderStatus.check_order_status (Some (pre ++ bad :: post)) =
              OrderStatus.scan_orders (pre ++ bad :: post))
    by (destruct pre; reflexivity).
  rewrite H. now apply scan_orders_abort.
Qed.

Lemma order_scan_stops_at_malformed_order_witness :
  OrderStatus.check_order_status
    (Some ([OrderStatus.mkOpenOrder 1 true (Some 100) (Some 2) (Some 1)]
           ++ OrderStatus.mkOpenOrder 2 false None (Some 2) (Some 1)
           :: [OrderStatus.mkOpenOrder 3 true (Some 100) (Some 4) (Some 1)])) =
  (fst (OrderStatus.check_order_status
          (Some [OrderStatus.mkOpenOrder 1 true (Some 100) (Some 2) (Some 1)])), true).
Proof.
  apply (order_scan_stops_at_malformed_order
           [OrderStatus.mkOpenOrder 1 true (Some 100) (Some 2) (Some 1)]
           [OrderStatus.mkOpenOrder 3 true (Some 100) (Some 4) (Some 1)]
           (OrderStatus.mkOpenOrder 2 false None (Some 2) (Some 1))).
  - repeat constructor; discriminate.
  - intros (H & _). now apply H.
Defined.

(** ** The sign of the Sortino ratio *)



(** ** Rounding of limit price and quantity *)

Section RoundingFacts.

Import TradingBot.

Lemma round_half_even_near x :
  inject_Z (round_half_even x) - x <= 1 # 2 /\
  x - inject_Z (round_half_even x) <= 1 # 2.
Proof.
  unfold round_half_even.
  pose proof (Qfloor_le x) as Hlo. pose proof (Qlt_floor x) as Hhi.
  rewrite inject_Z_plus in Hhi. change (inject_Z 1) with 1 in Hhi.
  destruct (Qcompare (x - inject_Z (Qfloor x)) (1 # 2)) eqn:E.
  - apply Qeq_alt in E.
    destruct (Z.even (Qfloor x)); rewrite ?inject_Z_plus;
      change (inject_Z 1) with 1; split; Lqa.lra.
  - apply Qlt_alt in E. split; Lqa.lra.
  - apply Qgt_alt in E. rewrite inject_Z_plus. change (inject_Z 1) with 1.
    split; Lqa.lra.
Qed.

Lemma round8_near x :
  round8 x - x <= 1 # 200000000 /\ x - round8 x <= 1 # 200000000.
Proof.
  unfold round8.
  destruct (round_half_even_near (x * inject_Z 100000000)) as [H1 H2].
  rewrite Qmake_Qdiv.
  set (z := inject_Z (round_half_even (x * inject_Z 100000000))) in *.
  change (inject_Z 100000000) with (100000000 # 1) in *.
  change (inject_Z (Z.pos 100000000)) with (100000000 # 1).
  assert (Hz : z / (100000000 # 1) == z * (1 # 100000000)) by (field; discriminate).
  rewrite Hz. split; Lqa.lra.
Qed.

Lemma half_amount a d : a * (5 # 10) / d == a * (1 # 2) / d.
Proof.
  unfold Qdiv. setoid_replace (5 # 10) with (1 # 2) by reflexivity. reflexivity.
Qed.

End RoundingFacts.

(** Every order the trade logic submits is priced at the latest quote
    less 0.2%, rounded to a whole KRW: the limit price is within 0.5 of
    0.998 times the quote, and does not exceed the quote once the quote is
    at least 250.  A buy order's quantity is within 0.000000005 of half the
    available KRW divided by the limit price; a sell order's quantity is
    the coin balance. *)
Theorem submitted_orders_are_discounted
    (ex : TradingBot.Exchange) (latest_signal : option Z)
    (krw_available coin_balance : Q) (s : TradingBot.Side) (p : Z) (q : Q) :
  In (TradingBot.SubmitLimitOrder s p q)
     (TradingBot.execute_trade_logic ex latest_signal krw_available coin_balance) ->
  exists current_price,
    TradingBot.get_current_price ex = Some current_price /\
    p = TradingBot.round_half_even (current_price * (998 # 1000)) /\
    inject_Z p - current_price * (998 # 1000) <= 1 # 2 /\
    current_price * (998 # 1000) - inject_Z p <= 1 # 2 /\
    (250 <= current_price -> inject_Z p <= current_price) /\
    match s with
    | TradingBot.Buy =>
        q - krw_available * (1 # 2) / inject_Z p <= 1 # 200000000 /\
        krw_available * (1 # 2) / inject_Z p - q <= 1 # 200000000
    | TradingBot.Sell => q = coin_balance
    end.
Proof.
  intros Hin. apply In_submitted in Hin.
  unfold TradingBot.execute_trade_logic in Hin.
  destruct (TradingBot.signal_is latest_signal 1).
  - destruct (Qltb krw_available TradingBot.MIN_KRW_ORDER);
      [destruct s; contradiction|].
    destruct (TradingBot.get_current_price ex) as [cp|];
      [|destruct s; contradiction].
    destruct (Z.eqb_spec (TradingBot.round_half_even (cp * (998 # 1000))) 0);
      [destruct s; contradiction|].
    cbn [TradingBot.submitted flat_map] in Hin.
    rewrite submitted_outcome_nil in Hin.
    destruct s; [|contradiction]. destruct Hin as [[= <- <-]|[]].
    exists cp. destruct (round_half_even_near (cp * (998 # 1000))) as [H1 H2].
    repeat split; auto.
    + intros H250. Lqa.lra.
    + rewrite <- (half_amount krw_available
                    (inject_Z (TradingBot.round_half_even (cp * (998 # 1000))))).
      apply round8_near.
    + rewrite <- (half_amount krw_available
                    (inject_Z (TradingBot.round_half_even (cp * (998 # 1000))))).
      apply round8_near.
  - destruct (TradingBot.signal_is latest_signal 0
              && Qltb TradingBot.MIN_BTC_HOLDING coin_balance);
      [|destruct s; contradiction].
    destruct (TradingBot.get_current_price ex) as [cp|];
      [|destruct s; contradiction].
    destruct (Qle_bool TradingBot.MIN_KRW_ORDER (coin_balance * cp));
      [|destruct s; contradiction].
    cbn [TradingBot.submitted flat_map] in Hin.
    rewrite submitted_outcome_nil in Hin.
    destruct s; [contradiction|]. destruct Hin as [[= <- <-]|[]].
    exists cp. destruct (round_half_even_near (cp * (998 # 1000))) as [H1 H2].
    repeat split; auto. intros H250. Lqa.lra.
Qed.

Lemma submitted_orders_are_discounted_witness :
  exists current_price,
    TradingBot.get_current_price ExchangeSamples.accepting = Some current_price /\
    99800000%Z = TradingBot.round_half_even (current_price * (998 # 1000)) /\
    inject_Z 99800000 - current_price * (998 # 1000) <= 1 # 2 /\
    current_price * (998 # 1000) - inject_Z 99800000 <= 1 # 2 /\
    (250 <= current_price -> inject_Z 99800000 <= current_price) /\
    (501002 # 100000000) - 1000000 * (1 # 2) / inject_Z 99800000 <= 1 # 200000000 /\
    1000000 * (1 # 2) / inject_Z 99800000 - (501002 # 100000000) <= 1 # 200000000.
Proof.
  apply (submitted_orders_are_discounted ExchangeSamples.accepting (Some 1%Z)
           1000000 (1 # 100) TradingBot.Buy 99800000 (501002 # 100000000)).
  vm_compute. right; right; left; reflexivity.
Defined.

(** ** Rows of the runs indicator *)

Section RunsRows.

Import RunsIndicator.

Variable runs_test : list Q -> float.

Lemma nth_set_nth_same {A} (l : list A) i v d :
  (i < length l)%nat -> nth i (set_nth l i v) d = v.
Proof.
  revert i; induction l as [|x t IH]; intros [|i] H; cbn in *; try lia; auto.
  apply IH. lia.
Qed.

(** Each row of the range is written by its own iteration only. *)
Lemma indicator_loop_row lb cs range : NoDup range ->
  forall ind i, In i range -> (i < length ind)%nat ->
  nth i (fold_left (indicator_step runs_test lb cs) range ind) (Some 0) =
  nth i (indicator_step runs_test lb cs ind i) (Some 0).
Proof.
  induction 1 as [|j range Hj Hnd IH]; intros ind i Hin Hi; [contradiction|].
  cbn [fold_left]. destruct Hin as [-> | Hin].
  - destruct (indicator_loop_shape runs_test lb cs range
                (indicator_step runs_test lb cs ind i)) as [_ Hn].
    now apply Hn.
  - destruct (indicator_step_shape runs_test lb cs ind j) as [Hl Hn].
    rewrite IH by (assumption || now rewrite Hl).
    unfold indicator_step at 1 3.
    destruct (2 <=? length _)%nat.
    + rewrite !nth_set_nth_same by (assumption || now rewrite Hl). reflexivity.
    + apply Hn. intros ->. contradiction.
Qed.

Lemma skipn_cons_nth_error {A} (L : list A) a v :
  nth_error L a = Some v -> skipn a L = v :: skipn (S a) L.
Proof.
  revert L. induction a as [|a IHa]; intros [|x L] Ha; cbn in *; try discriminate.
  - now injection Ha as ->.
  - now apply IHa.
Qed.

Lemma slice_as_map {A} (L : list A) (g : nat -> A) a m :
  (forall j, (a <= j < a + m)%nat -> nth_error L j = Some (g j)) ->
  slice L a (a + m) = map g (seq a m).
Proof.
  unfold slice. replace (a + m - a)%nat with m by lia.
  revert a L. induction m as [|m IH]; intros a L H; [now rewrite firstn_O|].
  pose proof (H a ltac:(lia)) as Ha.
  rewrite (skipn_cons_nth_error _ _ _ Ha). cbn [firstn seq map]. f_equal.
  apply IH. intros j Hj. apply H. lia.
Qed.

Lemma dropna_somes (l : list Q) : dropna (map Some l) = l.
Proof. induction l; cbn; congruence. Qed.

Lemma nth_error_diff (l : list float) j :
  (S j < length l)%nat ->
  nth_error (diff l) (S j) = Some (sub_float (nth (S j) l NaN) (nth j l NaN)).
Proof.
  destruct l as [|x t]; [cbn; lia|]. cbn [diff nth_error length]. intros Hj.
  revert x j Hj. induction t as [|y t IH]; intros x j Hj; [cbn in Hj; lia|].
  destruct j as [|j]; [reflexivity|].
  cbn [combine map nth_error nth]. apply (IH y j). cbn [length] in *. lia.
Qed.

End RunsRows.

(** On a close series without NaN and with lookback >= 2, every row from
    row [lookback] on holds the runs test of the signs of the last
    [lookback] close-to-close changes: the changes into rows
    [i - lookback + 1] to [i]. *)
Theorem runs_indicator_row
    (runs_test : list Q -> float) (close : RunsIndicator.Series)
    (lookback : Z) (i : nat) :
  (2 <= lookback)%Z ->
  Forall (fun row => snd row <> NaN) close ->
  (lookback <= Z.of_nat i)%Z -> (i < length close)%nat ->
  nth i (map snd (RunsIndicator.runs_trend_indicator runs_test close lookback)) (Some 0) =
  runs_test
    (map (fun j => sgn (value_at close j - value_at close (j - 1)))
         (seq (i - Z.to_nat lookback + 1) (Z.to_nat lookback))).
Proof.
  intros Hlb Hnan Hi Hn.
  unfold RunsIndicator.runs_trend_indicator.
  destruct (Z.leb_spec lookback 1); [lia|].
  destruct (Z.ltb_spec (Z.of_nat (length close)) lookback); [lia|].
  cbn [orb]. set (lb := Z.to_nat lookback).
  set (cs := map RunsIndicator.sign (RunsIndicator.diff (map snd close))).
  assert (Hlen : length (fold_left (RunsIndicator.indicator_step runs_test lb cs)
                           (seq lb (length close - lb))
                           (repeat NaN (length close))) = length close).
  { destruct (indicator_loop_shape runs_test lb cs (seq lb (length close - lb))
                (repeat NaN (length close))) as [Hl _].
    now rewrite Hl, repeat_length. }
  rewrite map_snd_combine by now rewrite length_map, Hlen.
  rewrite (indicator_loop_row runs_test lb cs);
    [| apply seq_NoDup | rewrite in_seq; unfold lb; lia | now rewrite repeat_length].
  unfold RunsIndicator.indicator_step.
  assert (Hcs : forall j, (1 <= j < length close)%nat ->
            nth_error cs j =
            Some (Some (sgn (value_at close j - value_at close (j - 1))))).
  { intros j Hj. unfold cs. destruct j as [|j]; [lia|].
    rewrite nth_error_map, nth_error_diff by (rewrite length_map; lia).
    cbn [option_map]. f_equal. unfold value_at.
    replace (S j - 1)%nat with j by lia.
    assert (Hv : forall k, (k < length close)%nat -> nth k (map snd close) NaN <> NaN).
    { intros k Hk. rewrite Forall_forall in Hnan.
      rewrite (nth_indep _ NaN (snd (0%Z, NaN))) by now rewrite length_map.
      rewrite map_nth. apply Hnan, nth_In. assumption. }
    pose proof (Hv (S j) ltac:(lia)) as H1. pose proof (Hv j ltac:(lia)) as H2.
    destruct (nth (S j) (map snd close) NaN) as [a|];
      [|exfalso; apply H1; reflexivity].
    destruct (nth j (map snd close) NaN) as [b|];
      [|exfalso; apply H2; reflexivity].
    reflexivity. }
  replace (i + 1)%nat with ((i - lb + 1) + lb)%nat by (unfold lb; lia).
  rewrite (slice_as_map cs
             (fun j => Some (sgn (value_at close j - value_at close (j - 1))))).
  - rewrite <- (map_map (fun j => sgn (value_at close j - value_at close (j - 1))) Some).
    rewrite dropna_somes, length_map, length_seq.
    destruct (Nat.leb_spec 2 lb); [|unfold lb in *; lia].
    apply nth_set_nth_same. now rewrite repeat_length.
  - intros j Hj. apply Hcs. unfold lb in *. lia.
Qed.

Lemma runs_indicator_row_witness :
  nth 2 (map snd (RunsIndicator.runs_trend_indicator (fun l => Some (inject_Z (Z.of_nat (length l))))
                    [(1%Z, Some 10); (2%Z, Some 11); (3%Z, Some 9); (4%Z, Some 9)] 2))
      (Some 0) =
  (fun l => Some (inject_Z (Z.of_nat (length l))))
    (map (fun j => sgn (value_at [(1%Z, Some 10); (2%Z, Some 11); (3%Z, Some 9); (4%Z, Some 9)] j
                        - value_at [(1%Z, Some 10); (2%Z, Some 11); (3%Z, Some 9); (4%Z, Some 9)] (j - 1)))
         (seq (2 - Z.to_nat 2 + 1) (Z.to_nat 2))).
Proof.
  apply (runs_indicator_row (fun l => Some (inject_Z (Z.of_nat (length l))))
           [(1%Z, Some 10); (2%Z, Some 11); (3%Z, Some 9); (4%Z, Some 9)] 2 2%nat).
  - lia.
  - repeat constructor; discriminate.
  - cbn; lia.
  - cbn; lia.
Defined.

(** ** Trades and runs of ones *)

Section RunFacts.

Import Donchian.

Variables (data : DataFrame) (sig : list float).
Hypothesis Hbin : Forall binary sig.
Hypothesis Hlen : (length data <= length sig)%nat.

Lemma sig_binary k : (k < length sig)%nat ->
  nth k sig NaN = Some 0 \/ nth k sig NaN = Some 1.
Proof.
  intros Hk. rewrite Forall_forall in Hbin. apply Hbin, nth_In, Hk.
Qed.

Lemma open_since_step k ot :
  nth k sig NaN = Some 1 -> open_since data sig k ot -> open_since data sig (S k) ot.
Proof.
  intros Hk (j & bar & Hj & Hbar & Ht & Hp & He & Hrise & Hrun).
  exists j, bar. repeat split; auto.
  intros m Hm. destruct (Nat.eq_dec m k) as [->|]; [assumption|]. apply Hrun. lia.
Qed.

Lemma loop_body_runs k st :
  (k < length data)%nat ->
  run_inv data sig k st ->
  exists st',
    loop_body (map timestamp data) (map close data) sig st k = Some st' /\
    run_inv data sig (S k) st'.
Proof.
  intros Hk (Hclosed & Hlast & Hopen).
  assert (Hks : (k < length sig)%nat) by lia.
  destruct (nth_error data k) as [bar|] eqn:Hbar;
    [|apply nth_error_None in Hbar; lia].
  unfold loop_body. rewrite !pyget_map, !pyget_nat, Hbar.
  rewrite (nth_error_nth' sig NaN Hks). cbn [bind option_map].
  destruct (pyget_some data (Z.of_nat k - 1)) as [prev ->]; [lia|].
  cbn [option_map bind].
  destruct (sig_binary k Hks) as [Hcur | Hcur]; rewrite Hcur.
  - (* the signal is 0 on this row *)
    change (is_one (Some 0)) with false. change (is_zero (Some 0)) with true.
    cbn [andb bind].
    destruct (open_trade st) as [ot|] eqn:Hot.
    + destruct Hopen as [Hl1 (j & bin & Hj & Hbin' & Ht & Hp & He & Hrise & Hrun)].
      rewrite Hl1. change (is_one (Some 1)) with true. cbn [bind].
      eexists; split; [reflexivity|]. unfold run_inv.
      cbn [long_trades last_sig open_trade]. repeat split; auto.
      apply Forall_app; split; [assumption|]. constructor; [|constructor].
      exists j, k, bin, bar. cbn. repeat split; auto; lia.
    + rewrite Hopen. change (is_one (Some 0)) with false. cbn [bind].
      eexists; split; [reflexivity|]. unfold run_inv.
      cbn [long_trades last_sig open_trade]. rewrite Hot. auto.
  - (* the signal is 1 on this row *)
    change (is_one (Some 1)) with true. change (is_zero (Some 1)) with false.
    cbn [andb].
    destruct (open_trade st) as [ot|] eqn:Hot.
    + destruct Hopen as [Hl1 Hsince]. rewrite Hl1.
      change (is_one (Some 1)) with true. cbn [negb bind].
      eexists; split; [reflexivity|]. unfold run_inv.
      cbn [long_trades last_sig open_trade]. rewrite Hot.
      repeat split; auto. now apply open_since_step.
    + rewrite Hopen. change (is_one (Some 0)) with false. cbn [negb bind].
      eexists; split; [reflexivity|]. unfold run_inv.
      cbn [long_trades last_sig open_trade]. repeat split; auto.
      exists k, bar. cbn. repeat split; auto.
      * destruct k as [|k']; [now left|]. right.
        rewrite Hlast in Hopen. now replace (S k' - 1)%nat with k' by lia.
      * intros m Hm. now replace m with k by lia.
Qed.

Lemma loop_runs_inv k :
  (k <= length data)%nat ->
  exists st,
    for_range (loop_body (map timestamp data) (map close data) sig) (seq 0 k)
      (mkLoopState [] (Some 0) None) = Some st /\
    run_inv data sig k st.
Proof.
  induction k as [|k IH]; intros Hk.
  - eexists; split; [reflexivity|]. unfold run_inv. cbn. auto.
  - destruct IH as (st & Hrun & Hinv); [lia|].
    destruct (loop_body_runs k st ltac:(lia) Hinv) as (st' & Hstep & Hinv').
    exists st'. split; [|assumption].
    rewrite seq_S, for_range_app, Hrun. cbn. now rewrite Hstep.
Qed.

(** The rows returned for a 0/1 signal. *)
Lemma extraction_spans_runs :
  exists r, get_trades_from_signal data sig = Some r /\
            Forall (spans_run data sig) (long_trades_df r).
Proof.
  destruct (loop_runs_inv (length data) (le_n _)) as (st & Hrun & Hclosed & Hlast & Hopen).
  unfold get_trades_from_signal. rewrite Hrun. cbn [bind].
  unfold close_dangling.
  destruct (open_trade st) as [ot|].
  - destruct Hopen as [_ (j & bin & Hj & Hbin' & Ht & Hp & He & Hrise & Hrun')].
    rewrite He. cbn [Z.eqb Pos.eqb]. rewrite !pyget_map.
    assert (Hne : data <> []) by (destruct data; cbn in *; [lia | discriminate]).
    rewrite (pyget_last data Hne).
    destruct (nth_error data (length data - 1)) as [lastbar|] eqn:Hlastbar;
      [|apply nth_error_None in Hlastbar; lia].
    cbn [option_map bind]. eexists; split; [reflexivity|].
    cbn [long_trades_df]. apply Forall_app; split; [assumption|].
    constructor; [|constructor].
    exists j, (length data - 1)%nat, bin, lastbar. cbn.
    repeat split; auto; try lia.
    + intros m Hm. apply Hrun'. lia.
    + right. split; [reflexivity|]. apply Hrun'. lia.
  - eexists; split; [reflexivity|]. assumption.
Qed.

End RunFacts.

(** On a signal of zeros and ones every returned trade spans a run of
    ones: it enters on a row where the signal has just risen from 0 (or on
    the first row), the signal is 1 on every row up to the exit row, and
    the exit row is the first row back at 0, or the last row of the frame
    when the signal is still 1 there. *)
Theorem trades_span_runs_of_ones (data : DataFrame) (sig : list float) :
  Forall binary sig -> (length data <= length sig)%nat ->
  exists r, Donchian.get_trades_from_signal data sig = Some r /\
            Forall (spans_run data sig) (Donchian.long_trades_df r).
Proof.
  intros Hbin Hlen.
  destruct (extraction_spans_runs data sig Hbin Hlen) as (r & Hr & Hspans).
  exists r. split; assumption.
Qed.

Lemma trades_span_runs_of_ones_witness :
  exists r, Donchian.get_trades_from_signal Samples.df_exit
              [Some 0; Some 0; Some 1; Some 0; Some 1] = Some r /\
            Forall (spans_run Samples.df_exit [Some 0; Some 0; Some 1; Some 0; Some 1])
                   (Donchian.long_trades_df r).
Proof.
  apply trades_span_runs_of_ones.
  - repeat constructor; (now left) || (now right).
  - cbn; lia.
Defined.

(** ** The backtest pipeline *)

Lemma spans_run_follows_marks (df : DataFrame) (lookback : Z)
    (ch : Donchian.Channels) (t : Donchian.Trade) :
  Donchian.donchian_breakout df lookback = Some ch ->
  spans_run df (Donchian.signal ch) t ->
  follows_marks df (Donchian.raw_signal ch) t.
Proof.
  intros Hch (j & i & bin & bout & Hji & Hbin & Hbout & Ht & Hp & Het & Hep
              & Hrise & Hrun & Hexit).
  pose proof (signal_scan df lookback ch Hch) as Hscan.
  assert (HSj : nth j (Donchian.signal ch) NaN = Some 1).
  { destruct Hexit as [[Hlt _] | [_ H1]].
    - apply Hrun. lia.
    - destruct (Nat.eq_dec j i) as [->|]; [exact H1 | apply Hrun; lia]. }
  exists j, i, bin, bout. repeat split; auto; try lia.
  - (* the entry row is marked 1 *)
    pose proof (Hscan j ltac:(lia)) as Hs. rewrite HSj in Hs.
    destruct (nth j (Donchian.raw_signal ch) NaN) as [v|];
      [now rewrite Hs|].
    destruct j as [|j']; [discriminate|].
    destruct Hrise as [H0 | H0]; [lia|].
    replace (S j' - 1)%nat with j' in H0 by lia.
    rewrite H0 in Hs. discriminate.
  - (* no exit mark inside the run *)
    intros m Hm HRm. pose proof (Hscan m ltac:(lia)) as Hs.
    rewrite HRm, (Hrun m ltac:(lia)) in Hs. discriminate.
  - (* the exit row is marked 0, or is the last row *)
    destruct Hexit as [[Hlt H0] | [Hlast _]]; [left | now right].
    split; [assumption|].
    pose proof (Hscan i ltac:(lia)) as Hs. rewrite H0 in Hs.
    destruct (nth i (Donchian.raw_signal ch) NaN) as [v|];
      [now rewrite Hs|].
    destruct i as [|i']; [lia|].
    rewrite (Hrun i' ltac:(lia)) in Hs. discriminate.
Qed.

(** The backtest end to end.  The trades extracted from the signal column
    of [donchian_breakout] on the same frame enter on a row marked as an
    entry and exit on a later row marked as an exit, with no exit mark in
    between; only a trade still open at the end exits on the last row
    instead. *)
Theorem backtest_trades_follow_marks
    (df : DataFrame) (lookback : Z) (ch : Donchian.Channels) :
  Donchian.donchian_breakout df lookback = Some ch ->
  exists r, Donchian.get_trades_from_signal df (Donchian.signal ch) = Some r /\
            Forall (follows_marks df (Donchian.raw_signal ch))
                   (Donchian.long_trades_df r).
Proof.
  intros Hch.
  destruct (signal_is_ffill df lookback ch Hch) as [Hsig Hlen].
  assert (Hl : (length df <= length (Donchian.signal ch))%nat)
    by (rewrite Hsig, length_ffill_from, Hlen; apply le_n).
  destruct (extraction_spans_runs df (Donchian.signal ch)
              (signal_column_binary df lookback ch Hch) Hl) as (r & Hr & Hspans).
  exists r. split; [assumption|].
  revert Hspans. apply Forall_impl. intros t.
  now apply spans_run_follows_marks with (lookback := lookback).
Qed.

Lemma backtest_trades_follow_marks_witness :
  exists r, Donchian.get_trades_from_signal Samples.df_exit
              (Donchian.signal MoreSamples.ch_exit) = Some r /\
            Forall (follows_marks Samples.df_exit
                      (Donchian.raw_signal MoreSamples.ch_exit))
                   (Donchian.long_trades_df r).
Proof. apply (backtest_trades_follow_marks Samples.df_exit 3). reflexivity. Defined.

(** ** Too little history *)

Lemma spans_run_has_one (data : DataFrame) (sig : list float) (t : Donchian.Trade) :
  spans_run data sig t -> exists j, (j < length data)%nat /\ nth j sig NaN = Some 1.
Proof.
  intros (j & i & _ & _ & Hji & _ & _ & _ & _ & _ & _ & _ & Hrun & Hexit).
  destruct Hexit as [[Hlt _] | [_ H1]].
  - exists j. split; [lia | apply Hrun; lia].
  - exists i. split; [lia | exact H1].
Qed.

(** With fewer candles than the lookback the backtest is flat: for
    lookback >= 2 and a frame shorter than the lookback, every signal value
    is 0 and the trade tables extracted from the signal are empty. *)
Theorem short_history_gives_no_trades (df : DataFrame) (lookback : Z) :
  (2 <= lookback)%Z -> (Z.of_nat (length df) < lookback)%Z ->
  exists ch, Donchian.donchian_breakout df lookback = Some ch /\
    Donchian.signal ch = repeat (Some 0) (length df) /\
    Donchian.get_trades_from_signal df (Donchian.signal ch) =
      Some (Donchian.mkTradeTables [] [] []).
Proof.
  intros Hlb Hshort.
  destruct (Donchian.donchian_breakout df lookback) as [ch|] eqn:Hch.
  2:{ revert Hch. unfold Donchian.donchian_breakout.
      destruct (Z.ltb_spec (lookback - 1) 0); [lia | discriminate]. }
  exists ch. split; [reflexivity|].
  destruct (signal_is_ffill df lookback ch Hch) as [Hsig Hlen].
  assert (Hraw : forall i, nth i (Donchian.raw_signal ch) NaN = NaN).
  { intros i. revert Hch. unfold Donchian.donchian_breakout.
    destruct (lookback - 1 <? 0)%Z; [discriminate|]. intros [= <-].
    cbn [Donchian.raw_signal].
    destruct (Nat.lt_ge_cases i (length df)) as [Hi|Hi].
    - unfold rolling_max, rolling_min.
      apply nth_marks_nan; apply shifted_rolling_warmup; lia.
    - apply nth_overflow. unfold rolling_max, rolling_min.
      rewrite length_marks;
        rewrite ?length_shift1, ?length_rolling_agg, ?length_map; auto. }
  assert (Hzero : forall i, (i < length df)%nat ->
                            nth i (Donchian.signal ch) NaN = Some 0).
  { induction i as [|i IH]; intros Hi;
      rewrite (signal_scan df lookback ch Hch) by assumption; rewrite Hraw.
    - reflexivity.
    - apply IH. lia. }
  assert (Hl : length (Donchian.signal ch) = length df)
    by now rewrite Hsig, length_ffill_from.
  split.
  - apply nth_ext with (d := NaN) (d' := NaN).
    + now rewrite repeat_length.
    + intros i Hi. rewrite Hl in Hi.
      rewrite nth_repeat_lt by assumption. now apply Hzero.
  - destruct (extraction_spans_runs df (Donchian.signal ch)
                (signal_column_binary df lookback ch Hch))
      as (r & Hr & Hspans); [rewrite Hl; apply le_n|].
    rewrite Hr. destruct r as [long short all]. cbn [Donchian.long_trades_df] in Hspans.
    revert Hr. unfold Donchian.get_trades_from_signal.
    destruct (Donchian.for_range _ _ _) as [st|]; [|discriminate]. cbn [bind].
    destruct (Donchian.close_dangling _ _ st) as [trades|]; [|discriminate].
    cbn [bind]. intros [= <- <- <-].
    destruct trades as [|t rest]; [reflexivity|].
    inversion Hspans as [|? ? Ht _]; subst.
    destruct (spans_run_has_one _ _ _ Ht) as (j & Hj & H1).
    rewrite Hzero in H1 by assumption. discriminate.
Qed.

Lemma short_history_gives_no_trades_witness :
  exists ch, Donchian.donchian_breakout Samples.df_three 5 = Some ch /\
    Donchian.signal ch = repeat (Some 0) (length Samples.df_three) /\
    Donchian.get_trades_from_signal Samples.df_three (Donchian.signal ch) =
      Some (Donchian.mkTradeTables [] [] []).
Proof. apply short_history_gives_no_trades; cbn; lia. Defined.
